(** * Style-guide admin: token pages, editors and settings

    A shallow embedding of the admin dashboard's domain logic:

    - the six token pages ([src/app/admin/{colors,typography,spacing,
      border-radius,animations}/page.tsx] and the shadows page), which are
      the same code up to the names of the category;
    - the token editors ([src/components/Admin/*Editor.tsx]; AnimationEditor
      and TypographyEditor are the second and third components of
      [ComponentEditor.tsx]);
    - the store ([useStyleGuideStore], the second half of
      [src/types/style-guide.ts]);
    - the settings page ([src/app/admin/settings/page.tsx]);
    - the change notifier ([src/hooks/useStyleGuideSocket.ts]).

    Handlers are [async] functions that read the values captured by their
    closure, call the store's setters and await the persistence gateway.
    They are embedded as functions from the state at entry to the state at
    exit; the replies of the gateway are arguments of the handler, and every
    setter call, gateway request and console line is appended to a history
    ([events]) so that the order of effects can be stated. *)

From Stdlib Require Import String Ascii List Bool ZArith NArith Lia.
From Stdlib Require Import Decimal DecimalString DecimalN.
Import ListNotations.
Open Scope string_scope.

(** ** Data model ([src/types/style-guide.ts]) *)

Inductive Category : Type :=
  | ColorScheme | Typography | Spacing | BorderRadius | Shadow | Animation.

(** The category-specific fields of a token ([scale], the colours of a colour
    scheme, ...) are kept as key/value pairs; no handler looks inside. *)
Definition Payload : Type := list (string * string).

Module Token.
(** [version] is a JavaScript number, that is a double.  The embedding keeps
    the integer-valued ones, as [Z]; arithmetic on them rounds as doubles do
    (see [plusOne]). *)
Record t : Type := mk {
  id : string;
  name : string;
  version : Z;
  payload : Payload;
  createdAt : string;
  updatedAt : string;
  createdBy : string
}.
End Token.

Module Config.
(** The six [active...] fields are declared [string], but the handlers store
    [null] in them and the gateway returns [null] for an empty column:
    [None] stands for [null]. *)
Record t : Type := mk {
  id : string;
  name : string;
  description : string;
  version : string;
  activeColorScheme : option string;
  activeTypography : option string;
  activeSpacing : option string;
  activeBorderRadius : option string;
  activeShadow : option string;
  activeAnimation : option string;
  customFeatures : list (string * bool);
  createdAt : string;
  updatedAt : string;
  createdBy : string
}.
End Config.

Module VersionHistory.
Record t : Type := mk {
  id : string;
  styleGuideId : string;
  version : string;
  changes : string;
  snapshot : Config.t;
  createdAt : string;
  createdBy : string
}.
End VersionHistory.

(** The names under which each page spells its category. *)
Definition tableName (c : Category) : string :=
  match c with
  | ColorScheme => "color_schemes"
  | Typography => "typographies"
  | Spacing => "spacings"
  | BorderRadius => "border_radiuses"
  | Shadow => "shadows"
  | Animation => "animations"
  end.

Definition activeFieldName (c : Category) : string :=
  match c with
  | ColorScheme => "activeColorScheme"
  | Typography => "activeTypography"
  | Spacing => "activeSpacing"
  | BorderRadius => "activeBorderRadius"
  | Shadow => "activeShadow"
  | Animation => "activeAnimation"
  end.

Definition socketType (c : Category) : string :=
  match c with
  | ColorScheme => "colorScheme"
  | Typography => "typography"
  | Spacing => "spacing"
  | BorderRadius => "borderRadius"
  | Shadow => "shadow"
  | Animation => "animation"
  end.

Definition noun (c : Category) : string :=
  match c with
  | ColorScheme => "color scheme"
  | Typography => "typography"
  | Spacing => "spacing"
  | BorderRadius => "border radius"
  | Shadow => "shadow"
  | Animation => "animation"
  end.

Definition plural (c : Category) : string :=
  match c with
  | ColorScheme => "color schemes"
  | Typography => "typographies"
  | Spacing => "spacings"
  | BorderRadius => "border radiuses"
  | Shadow => "shadows"
  | Animation => "animations"
  end.

Definition loadNoun (c : Category) : string :=
  match c with
  | ColorScheme => "color schemes"
  | Typography => "typography settings"
  | Spacing => "spacing settings"
  | BorderRadius => "border radius settings"
  | Shadow => "shadow settings"
  | Animation => "animation settings"
  end.

(** [config.activeSpacing] and [{ ...config, activeSpacing: v }], by category. *)
Definition activeOf (c : Category) (cfg : Config.t) : option string :=
  match c with
  | ColorScheme => Config.activeColorScheme cfg
  | Typography => Config.activeTypography cfg
  | Spacing => Config.activeSpacing cfg
  | BorderRadius => Config.activeBorderRadius cfg
  | Shadow => Config.activeShadow cfg
  | Animation => Config.activeAnimation cfg
  end.

Definition withActive (c : Category) (v : option string) (cfg : Config.t)
  : Config.t :=
  let pick (c' : Category) (old : option string) :=
    match c, c' with
    | ColorScheme, ColorScheme | Typography, Typography | Spacing, Spacing
    | BorderRadius, BorderRadius | Shadow, Shadow | Animation, Animation => v
    | _, _ => old
    end in
  Config.mk (Config.id cfg) (Config.name cfg) (Config.description cfg)
    (Config.version cfg)
    (pick ColorScheme (Config.activeColorScheme cfg))
    (pick Typography (Config.activeTypography cfg))
    (pick Spacing (Config.activeSpacing cfg))
    (pick BorderRadius (Config.activeBorderRadius cfg))
    (pick Shadow (Config.activeShadow cfg))
    (pick Animation (Config.activeAnimation cfg))
    (Config.customFeatures cfg) (Config.createdAt cfg) (Config.updatedAt cfg)
    (Config.createdBy cfg).

(** ** Persistence gateway ([src/lib/supabase.ts])

    The client is an external collaborator.  What the handlers rely on is its
    calling convention: an awaited query resolves to [{ data, error }], and a
    failed query is reported in [error] (the handlers test it with
    [if (error) throw error]).  The awaited expression itself can also throw,
    for instance when the client is [null] because the service is not
    configured. *)

Inductive Value : Type :=
  | VNull
  | VString (s : string)
  | VFlags (flags : list (string * bool))
  | VConfig (cfg : Config.t).

Inductive Row : Type :=
  | TokenRow (t : Token.t)
  | FieldsRow (fields : list (string * Value)).

Inductive Request : Type :=
  | Select (table : string) (orderBy : string)
  | SelectWhere (table column value : string) (orderByDescending : string)
  | Insert (table : string) (row : Row)
  | Update (table : string) (patch : Row) (id : string)
  | Delete (table : string) (id : string).

Inductive Reply (A : Type) : Type :=
  | Resolved (data : A)
  | Failed (message : string)
  | Thrown.
Arguments Resolved {A} data.
Arguments Failed {A} message.
Arguments Thrown {A}.

Definition succeeded {A : Type} (r : Reply A) : bool :=
  match r with Resolved _ => true | _ => false end.

(** ** State of a token page *)

Inductive Event : Type :=
  | Sent (r : Request)
  | SetItems (l : list Token.t)
  | SetActive (a : option Token.t)
  | SetConfig (cfg : option Config.t)
  | SetError (msg : option string)
  | SetErrorMessage (msg : option string)
  | Logged (line : string).

(** The store ([useStyleGuideStore]) holds, per category, the collection of
    token records and the active one, and the configuration record; each
    field has a setter that is [set({ field })].  [Page] holds the store
    fields one token page reads ([items] and [activeItem] are [spacings] and
    [activeSpacing] on the spacing page, and so on, [config],
    [isRealTimeEnabled]), the page's own [useState] cells ([error],
    [isLoading], [isEditorOpen], the record being edited, [userId]), the
    cells of the editor dialog it renders and of the notifier hook, and the
    history of effects. *)
Record Page : Type := mkPage {
  items : list Token.t;
  activeItem : option Token.t;
  config : option Config.t;
  error : option string;
  isLoading : bool;
  isEditorOpen : bool;
  editing : option Token.t;
  userId : string;
  editorLoading : bool;
  errorMessage : option string;
  isConnected : bool;
  isRealTimeEnabled : bool;
  events : list Event
}.

Definition record (e : Event) (s : Page) : Page :=
  mkPage (items s) (activeItem s) (config s) (error s) (isLoading s)
    (isEditorOpen s) (editing s) (userId s) (editorLoading s)
    (errorMessage s) (isConnected s) (isRealTimeEnabled s)
    (events s ++ [e]).

Definition setItems (l : list Token.t) (s : Page) : Page :=
  record (SetItems l)
    (mkPage l (activeItem s) (config s) (error s) (isLoading s)
       (isEditorOpen s) (editing s) (userId s) (editorLoading s)
       (errorMessage s) (isConnected s) (isRealTimeEnabled s) (events s)).

Definition setActive (a : option Token.t) (s : Page) : Page :=
  record (SetActive a)
    (mkPage (items s) a (config s) (error s) (isLoading s)
       (isEditorOpen s) (editing s) (userId s) (editorLoading s)
       (errorMessage s) (isConnected s) (isRealTimeEnabled s) (events s)).

Definition setConfig (cfg : option Config.t) (s : Page) : Page :=
  record (SetConfig cfg)
    (mkPage (items s) (activeItem s) cfg (error s) (isLoading s)
       (isEditorOpen s) (editing s) (userId s) (editorLoading s)
       (errorMessage s) (isConnected s) (isRealTimeEnabled s) (events s)).

Definition setError (msg : option string) (s : Page) : Page :=
  record (SetError msg)
    (mkPage (items s) (activeItem s) (config s) msg (isLoading s)
       (isEditorOpen s) (editing s) (userId s) (editorLoading s)
       (errorMessage s) (isConnected s) (isRealTimeEnabled s) (events s)).

Definition setIsLoading (b : bool) (s : Page) : Page :=
  mkPage (items s) (activeItem s) (config s) (error s) b
    (isEditorOpen s) (editing s) (userId s) (editorLoading s)
    (errorMessage s) (isConnected s) (isRealTimeEnabled s) (events s).

Definition setIsEditorOpen (b : bool) (s : Page) : Page :=
  mkPage (items s) (activeItem s) (config s) (error s) (isLoading s)
    b (editing s) (userId s) (editorLoading s)
    (errorMessage s) (isConnected s) (isRealTimeEnabled s) (events s).

Definition setEditorLoading (b : bool) (s : Page) : Page :=
  mkPage (items s) (activeItem s) (config s) (error s) (isLoading s)
    (isEditorOpen s) (editing s) (userId s) b
    (errorMessage s) (isConnected s) (isRealTimeEnabled s) (events s).

Definition setErrorMessage (msg : option string) (s : Page) : Page :=
  record (SetErrorMessage msg)
    (mkPage (items s) (activeItem s) (config s) (error s) (isLoading s)
       (isEditorOpen s) (editing s) (userId s) (editorLoading s)
       msg (isConnected s) (isRealTimeEnabled s) (events s)).

Definition send (r : Request) (s : Page) : Page := record (Sent r) s.
Definition consoleLine (line : string) (s : Page) : Page :=
  record (Logged line) s.

(** Control flow of a [try] block over a state [S]: the state reached, and
    whether an exception is in flight. *)
Inductive Flow (S : Type) : Type :=
  | Next (s : S)
  | Raise (s : S).
Arguments Next {S} s.
Arguments Raise {S} s.

Definition andThen {S : Type} (f : Flow S) (k : S -> Flow S) : Flow S :=
  match f with
  | Next s => k s
  | Raise s => Raise s
  end.

Notation "f >>= k" := (andThen f k) (at level 50, left associativity).

Definition tryCatch {S : Type} (body : Flow S) (handler : S -> S) : S :=
  match body with
  | Next s => s
  | Raise s => handler s
  end.

(** [await supabase.from(...)...] in a handler that acts on a record the page
    lists.  The list is filled only by a query that succeeded, so the client
    exists: the request leaves, and the expression throws only when the
    query is rejected ([Thrown]); a [Failed] reply is a value like any
    other. *)
Definition awaiting {S A : Type} (sent : S) (reply : Reply A) : Flow S :=
  match reply with
  | Thrown => Raise sent
  | _ => Next sent
  end.

Definition await {A : Type} (r : Request) (reply : Reply A) (s : Page)
  : Flow Page :=
  awaiting (send r s) reply.

(** [await supabase.from(...)...] in a handler that also runs while the
    client is [null] (the load effects, the submit of an editor, the
    handlers of the settings page): [supabase.from] then throws before any
    request is made, so on [Thrown] nothing has left. *)
Definition attempting {S A : Type} (unsent sent : S) (reply : Reply A)
  : Flow S :=
  match reply with
  | Thrown => Raise unsent
  | _ => Next sent
  end.

Definition attempt {A : Type} (r : Request) (reply : Reply A) (s : Page)
  : Flow Page :=
  attempting s (send r s) reply.

(** [if (error) throw error;] *)
Definition throwIfError {S A : Type} (reply : Reply A) (s : S) : Flow S :=
  match reply with
  | Failed _ => Raise s
  | _ => Next s
  end.

(** ** Change notifier ([src/hooks/useStyleGuideSocket.ts]) *)

(** The body of [emitUpdate]; types are erased when it runs, so it takes any
    two strings.  [data] is only printed. *)
Definition emitUpdate {A : Type} (type action : string) (data : A) (s : Page)
  : Page :=
  if negb (isConnected s) || negb (isRealTimeEnabled s) then s
  else consoleLine ("Emitting update: " ++ type ++ " " ++ action) s.

(** ** Handlers of a token page *)

Section TokenPage.

Variable c : Category.

Definition configTable : string := "style_guide_configs".

(** [activeSpacing?.id === id] *)
Definition activeIs (id : string) (a : option Token.t) : bool :=
  match a with
  | Some t => String.eqb (Token.id t) id
  | None => false
  end.

(** [config.activeSpacing === id] *)
Definition refersTo (id : string) (cfg : Config.t) : bool :=
  match activeOf c cfg with
  | Some a => String.eqb a id
  | None => false
  end.

(** [fetchSpacings], the body of the page's second effect. *)
Definition fetchTokens (listed : Reply (list Token.t)) (s : Page) : Page :=
  let body :=
    attempt (Select (tableName c) "name") listed (setIsLoading true s)
    >>= throwIfError listed
    >>= fun s1 =>
      match listed with
      | Resolved data =>
          let s2 := setItems data s1 in
          match config s with
          | Some cfg =>
              match activeOf c cfg with
              | Some a =>
                  if String.eqb a "" then Next s2
                  else
                    match find (fun t => String.eqb (Token.id t) a) data with
                    | Some active => Next (setActive (Some active) s2)
                    | None => Next s2
                    end
              | None => Next s2
              end
          | None => Next s2
          end
      | _ => Next s1
      end in
  setIsLoading false
    (tryCatch body (fun s' =>
       setError (Some ("Failed to load " ++ loadNoun c ++ ". Please try again."))
         (consoleLine ("Error fetching " ++ plural c ++ ":") s'))).

(** [handleDelete]; [confirmed] is the answer to the [confirm] dialog,
    [deleted] the reply to the delete and [cleared] the reply to the update
    of the configuration row (read only if that update is issued). *)
Definition handleDelete (confirmed : bool) (deleted cleared : Reply unit)
    (id : string) (s : Page) : Page :=
  if negb confirmed then s
  else
    let body :=
      await (Delete (tableName c) id) deleted s
      >>= throwIfError deleted
      >>= fun s1 =>
        let s2 :=
          setItems
            (filter (fun t => negb (String.eqb (Token.id t) id)) (items s))
            s1 in
        (if activeIs id (activeItem s) then
           let s3 := setActive None s2 in
           match config s with
           | Some cfg =>
               if refersTo id cfg then
                 await
                   (Update configTable
                      (FieldsRow [(activeFieldName c, VNull)])
                      (Config.id cfg))
                   cleared
                   (setConfig (Some (withActive c None cfg)) s3)
               else Next s3
           | None => Next s3
           end
         else Next s2)
      >>= fun s4 => Next (emitUpdate (socketType c) "remove" id s4) in
    tryCatch body (fun s' =>
      setError (Some ("Failed to delete " ++ noun c ++ ". Please try again."))
        (consoleLine ("Error deleting " ++ noun c ++ ":") s')).

(** [handleSetActive]; [persisted] is the reply to the update of the
    configuration row (read only if that update is issued). *)
Definition handleSetActive (persisted : Reply unit) (t : Token.t) (s : Page)
  : Page :=
  let body :=
    let s1 := setActive (Some t) s in
    match config s with
    | Some cfg =>
        await
          (Update configTable
             (FieldsRow [(activeFieldName c, VString (Token.id t))])
             (Config.id cfg))
          persisted
          (setConfig (Some (withActive c (Some (Token.id t)) cfg)) s1)
    | None => Next s1
    end
    >>= fun s2 => Next (emitUpdate (socketType c) "setActive" t s2) in
  tryCatch body (fun s' =>
    setError
      (Some ("Failed to set active " ++ noun c ++ ". Please try again."))
      (consoleLine ("Error setting active " ++ noun c ++ ":") s')).

(** [handleSave], the editor's [onSave] callback. *)
Definition handleSave (t : Token.t) (s : Page) : Page :=
  let s1 := setIsEditorOpen false s in
  match editing s with
  | Some _ =>
      emitUpdate (socketType c) "update" t
        (setItems
           (map (fun x => if String.eqb (Token.id x) (Token.id t) then t else x)
              (items s))
           s1)
  | None =>
      emitUpdate (socketType c) "add" t (setItems (items s ++ [t]) s1)
  end.

End TokenPage.

(** ** Token editors ([src/components/Admin/*Editor.tsx]) *)

(** [a || b] on strings: the empty string is falsy. *)
Definition orElse (a b : string) : string :=
  if String.eqb a "" then b else a.

(** The double nearest to an integer (ties to the even significand), for an
    integer of magnitude below 2^1024: integers below 2^53 are doubles, and
    above that a double is a multiple of the power of two that leaves 53
    significant bits. *)
Definition roundDouble (x : Z) : Z :=
  let m := Z.abs x in
  if (m <? 2 ^ 53)%Z then x
  else
    let e := (Z.log2 m - 52)%Z in
    let q := (m / 2 ^ e)%Z in
    let r := (m mod 2 ^ e)%Z in
    let half := (2 ^ (e - 1))%Z in
    let q' :=
      if (r <? half)%Z then q
      else if (half <? r)%Z then (q + 1)%Z
      else if Z.even q then q else (q + 1)%Z in
    (Z.sgn x * (q' * 2 ^ e))%Z.

(** [version + 1] on an integer-valued double. *)
Definition plusOne (version : Z) : Z := roundDouble (version + 1).

(** [Number.isSafeInteger(n)] on an integer: the magnitude is below 2^53. *)
Definition isSafeInteger (n : Z) : Prop := (Z.abs n < 2 ^ 53)%Z.

Section TokenEditor.

Variable c : Category.

(** The record the editor builds on submit ([updatedSpacing]); [existing] is
    the [spacing] prop, [now] is [new Date().toISOString()] and [uuid] the
    value [uuidv4()] returns if it is called. *)
Definition prepare (existing : option Token.t) (now uuid user : string)
    (formName : string) (formPayload : Payload) : Token.t :=
  Token.mk
    (match existing with Some r => orElse (Token.id r) uuid | None => uuid end)
    formName
    (match existing with Some r => plusOne (Token.version r) | None => 1%Z end)
    formPayload
    (match existing with Some r => orElse (Token.createdAt r) now | None => now end)
    now
    (match existing with Some r => orElse (Token.createdBy r) user | None => user end).

(** The gateway write of a submit. *)
Definition writeRequest (existing : option Token.t) (t : Token.t) : Request :=
  match existing with
  | Some r => Update (tableName c) (TokenRow t) (Token.id r)
  | None => Insert (tableName c) (TokenRow t)
  end.

Definition saveFailed (s : Page) : Page :=
  setErrorMessage (Some ("Failed to save " ++ noun c ++ ". Please try again."))
    (consoleLine ("Error saving " ++ noun c ++ ":") s).

(** [handleSubmit] of the six editors (ColorSchemeEditor, TypographyEditor,
    SpacingEditor, BorderRadiusEditor, ShadowEditor, AnimationEditor), which
    differ in the category-specific fields, the table and the messages.  The
    page renders the editor with [spacing={editingSpacing}],
    [userId={userId}] and [onSave={handleSave}]. *)
Definition handleSubmit (now uuid : string) (formName : string)
    (formPayload : Payload) (written : Reply unit) (s : Page) : Page :=
  let s0 := setErrorMessage None (setEditorLoading true s) in
  let updated := prepare (editing s) now uuid (userId s) formName formPayload in
  let body :=
    attempt (writeRequest (editing s) updated) written s0
    >>= throwIfError written
    >>= fun s1 => Next (handleSave c updated s1) in
  setEditorLoading false (tryCatch body saveFailed).

End TokenEditor.

(** ** Settings page ([src/app/admin/settings/page.tsx]) *)

(** Strings are held as the bytes of their UTF-8 encoding (the way a string
    literal is read); texts are equal exactly when their encodings are.

    The characters [String.prototype.trim] removes are the white space and
    line terminator code points: U+0009 to U+000D, U+0020, U+00A0, U+1680,
    U+2000 to U+200A, U+2028, U+2029, U+202F, U+205F, U+3000 and U+FEFF.
    They are recognised by their encodings of one, two and three bytes. *)
Definition isWhitespace1 (a : ascii) : bool :=
  let n := nat_of_ascii a in
  ((9 <=? n) && (n <=? 13))%nat || (n =? 32)%nat.

Definition isWhitespace2 (a b : ascii) : bool :=
  ((nat_of_ascii a =? 194) && (nat_of_ascii b =? 160))%nat.

Definition isWhitespace3 (a b c : ascii) : bool :=
  let x := nat_of_ascii a in
  let y := nat_of_ascii b in
  let z := nat_of_ascii c in
  ((x =? 225) && (y =? 154) && (z =? 128)
   || (x =? 226) && (y =? 128)
      && ((128 <=? z) && (z <=? 138) || (z =? 168) || (z =? 169) || (z =? 175))
   || (x =? 226) && (y =? 129) && (z =? 159)
   || (x =? 227) && (y =? 128) && (z =? 128)
   || (x =? 239) && (y =? 187) && (z =? 191))%nat.

(** Every character of the text is one that [trim] removes. *)
Fixpoint allWhitespace (s : string) : bool :=
  match s with
  | EmptyString => true
  | String a rest =>
      if isWhitespace1 a then allWhitespace rest
      else
        match rest with
        | String b rest2 =>
            if isWhitespace2 a b then allWhitespace rest2
            else
              match rest2 with
              | String c rest3 =>
                  if isWhitespace3 a b c then allWhitespace rest3 else false
              | EmptyString => false
              end
        | EmptyString => false
        end
  end.

(** [!s.trim()]: the trimmed string is empty. *)
Definition isBlank (s : string) : bool := allWhitespace s.

(** [s.split(sep)] for a one-character separator. *)
Fixpoint split (sep : ascii) (s : string) : list string :=
  match s with
  | EmptyString => [EmptyString]
  | String ch rest =>
      if Ascii.eqb ch sep then EmptyString :: split sep rest
      else
        match split sep rest with
        | seg :: segs => String ch seg :: segs
        | [] => [String ch EmptyString]
        end
  end.

Definition MAX_SAFE_INTEGER : N := 9007199254740991.

(** [Number(s)] is followed on the strings of decimal digits whose value is
    a safe integer, where it is exact.  [None] stands for every other result
    ([NaN], the value of an empty or signed or exponent string, a rounded
    value), which the embedding does not follow. *)
Definition Number (s : string) : option N :=
  match NilZero.uint_of_string s with
  | Some d =>
      let n := N.of_uint d in
      if (n <=? MAX_SAFE_INTEGER)%N then Some n else None
  | None => None
  end.

(** [String(n)] for an integer up to 2^53: its decimal digits. *)
Definition render (n : N) : string := NilZero.string_of_uint (N.to_uint n).

(** [parts.join('.')] on numbers. *)
Fixpoint join (parts : list N) : string :=
  match parts with
  | [] => EmptyString
  | [n] => render n
  | n :: rest => render n ++ "." ++ join rest
  end.

Fixpoint allSome {A : Type} (l : list (option A)) : option (list A) :=
  match l with
  | [] => Some []
  | Some x :: rest =>
      match allSome rest with
      | Some xs => Some (x :: xs)
      | None => None
      end
  | None :: _ => None
  end.

(** [versionParts = version.split('.').map(Number); versionParts[2] += 1;
    versionParts.join('.')].  [None] when a segment leaves the fragment of
    [Number] that is followed, or when there is no third segment (the
    addition then yields [NaN]). *)
Definition bumpPatch (version : string) : option string :=
  match allSome (map Number (split "." version)) with
  | Some (major :: minor :: patch :: rest) =>
      Some (join (major :: minor :: (patch + 1)%N :: rest))
  | _ => None
  end.

Module Settings.

Inductive Event : Type :=
  | Sent (r : Request)
  | SetConfig (cfg : option Config.t)
  | SetError (msg : option string)
  | SetVersion (v : string)
  | SetVersionHistory (h : list VersionHistory.t)
  | SetSuccessMessage (msg : option string)
  | Logged (line : string).

(** The store fields the settings page touches ([config], [error]; see
    [Page] for the store) and the page's own [useState] cells. *)
Record State : Type := mk {
  config : option Config.t;
  error : option string;
  name : string;
  description : string;
  version : string;
  customFeatures : list (string * bool);
  versionHistory : list VersionHistory.t;
  isVersionDialogOpen : bool;
  newVersionChanges : string;
  isSaving : bool;
  userId : string;
  successMessage : option string;
  events : list Event
}.

Definition record (e : Event) (s : State) : State :=
  mk (config s) (error s) (name s) (description s) (version s)
    (customFeatures s) (versionHistory s) (isVersionDialogOpen s)
    (newVersionChanges s) (isSaving s) (userId s) (successMessage s)
    (events s ++ [e]).

Definition setConfig (cfg : option Config.t) (s : State) : State :=
  record (SetConfig cfg)
    (mk cfg (error s) (name s) (description s) (version s)
       (customFeatures s) (versionHistory s) (isVersionDialogOpen s)
       (newVersionChanges s) (isSaving s) (userId s) (successMessage s)
       (events s)).

Definition setError (msg : option string) (s : State) : State :=
  record (SetError msg)
    (mk (config s) msg (name s) (description s) (version s)
       (customFeatures s) (versionHistory s) (isVersionDialogOpen s)
       (newVersionChanges s) (isSaving s) (userId s) (successMessage s)
       (events s)).

Definition setVersion (v : string) (s : State) : State :=
  record (SetVersion v)
    (mk (config s) (error s) (name s) (description s) v
       (customFeatures s) (versionHistory s) (isVersionDialogOpen s)
       (newVersionChanges s) (isSaving s) (userId s) (successMessage s)
       (events s)).

Definition setVersionHistory (h : list VersionHistory.t) (s : State) : State :=
  record (SetVersionHistory h)
    (mk (config s) (error s) (name s) (description s) (version s)
       (customFeatures s) h (isVersionDialogOpen s)
       (newVersionChanges s) (isSaving s) (userId s) (successMessage s)
       (events s)).

Definition setSuccessMessage (msg : option string) (s : State) : State :=
  record (SetSuccessMessage msg)
    (mk (config s) (error s) (name s) (description s) (version s)
       (customFeatures s) (versionHistory s) (isVersionDialogOpen s)
       (newVersionChanges s) (isSaving s) (userId s) msg
       (events s)).

Definition setIsVersionDialogOpen (b : bool) (s : State) : State :=
  mk (config s) (error s) (name s) (description s) (version s)
    (customFeatures s) (versionHistory s) b
    (newVersionChanges s) (isSaving s) (userId s) (successMessage s)
    (events s).

Definition setNewVersionChanges (v : string) (s : State) : State :=
  mk (config s) (error s) (name s) (description s) (version s)
    (customFeatures s) (versionHistory s) (isVersionDialogOpen s)
    v (isSaving s) (userId s) (successMessage s)
    (events s).

Definition setIsSaving (b : bool) (s : State) : State :=
  mk (config s) (error s) (name s) (description s) (version s)
    (customFeatures s) (versionHistory s) (isVersionDialogOpen s)
    (newVersionChanges s) b (userId s) (successMessage s)
    (events s).

Definition await {A : Type} (r : Request) (reply : Reply A) (s : State)
  : Flow State :=
  attempting s (record (Sent r) s) reply.

(** The first effect on [[config]]: the form cells follow the
    configuration. *)
Definition syncForm (s : State) : State :=
  match config s with
  | Some cfg =>
      mk (config s) (error s) (Config.name cfg) (Config.description cfg)
        (Config.version cfg) (Config.customFeatures cfg) (versionHistory s)
        (isVersionDialogOpen s) (newVersionChanges s) (isSaving s) (userId s)
        (successMessage s) (events s)
  | None => s
  end.

(** The second effect on [[config]], [fetchVersionHistory]: the history of
    the configuration is asked from the gateway and, when the answer comes
    with data, replaces the history cell.  [listed] is the answer, [None]
    while it has not come. *)
Definition fetchVersionHistory
    (listed : option (Reply (list VersionHistory.t))) (s : State) : State :=
  match config s with
  | None => s
  | Some cfg =>
      let query :=
        SelectWhere "version_histories" "style_guide_id" (Config.id cfg)
          "created_at" in
      match listed with
      | None => record (Sent query) s
      | Some reply =>
          tryCatch
            (await query reply s
             >>= throwIfError reply
             >>= fun s1 =>
               match reply with
               | Resolved data => Next (setVersionHistory data s1)
               | _ => Next s1
               end)
            (fun s' =>
               setError
                 (Some "Failed to load version history. Please try again.")
                 (record (Logged "Error fetching version history:") s'))
      end
  end.

(** The column a category's selection is stored in. *)
Definition activeColumn (c : Category) : string :=
  match c with
  | ColorScheme => "active_color_scheme"
  | Typography => "active_typography"
  | Spacing => "active_spacing"
  | BorderRadius => "active_border_radius"
  | Shadow => "active_shadow"
  | Animation => "active_animation"
  end.

(** [row[key]] *)
Fixpoint field (key : string) (row : list (string * Value)) : option Value :=
  match row with
  | [] => None
  | (k, v) :: rest => if String.eqb k key then Some v else field key rest
  end.

(** The object built and the row inserted when no configuration exists. *)
Definition newConfig (now uuid : string) (s : State) : Config.t :=
  Config.mk uuid (name s) (description s) (version s)
    (Some "") (Some "") (Some "") (Some "") (Some "") (Some "")
    (customFeatures s) now now (userId s).

Definition newConfigRow (now uuid : string) (s : State)
  : list (string * Value) :=
  [("id", VString uuid);
   ("name", VString (name s));
   ("description", VString (description s));
   ("version", VString (version s));
   ("active_color_scheme", VNull);
   ("active_typography", VNull);
   ("active_spacing", VNull);
   ("active_border_radius", VNull);
   ("active_shadow", VNull);
   ("active_animation", VNull);
   ("custom_features", VFlags (customFeatures s));
   ("created_at", VString now);
   ("updated_at", VString now);
   ("created_by", VString (userId s))].

(** [handleSaveSettings].  The timer that hides the success message after
    three seconds is not followed. *)
Definition handleSaveSettings (now uuid : string) (written : Reply unit)
    (s : State) : State :=
  if isBlank (name s) then
    setError (Some "Please enter a name for the style guide.") s
  else
    let s0 := setError None (setIsSaving true s) in
    let body :=
      match config s with
      | Some cfg =>
          await
            (Update configTable
               (FieldsRow
                  [("name", VString (name s));
                   ("description", VString (description s));
                   ("version", VString (version s));
                   ("custom_features", VFlags (customFeatures s));
                   ("updated_at", VString now)])
               (Config.id cfg))
            written s0
          >>= throwIfError written
          >>= fun s1 =>
            Next
              (setSuccessMessage (Some "Settings saved successfully!")
                 (setConfig
                    (Some
                       (Config.mk (Config.id cfg) (name s) (description s)
                          (version s)
                          (Config.activeColorScheme cfg)
                          (Config.activeTypography cfg)
                          (Config.activeSpacing cfg)
                          (Config.activeBorderRadius cfg)
                          (Config.activeShadow cfg)
                          (Config.activeAnimation cfg)
                          (customFeatures s) (Config.createdAt cfg) now
                          (Config.createdBy cfg)))
                    s1))
      | None =>
          await (Insert configTable (FieldsRow (newConfigRow now uuid s)))
            written s0
          >>= throwIfError written
          >>= fun s1 =>
            Next
              (setSuccessMessage (Some "Settings created successfully!")
                 (setConfig (Some (newConfig now uuid s)) s1))
      end in
    setIsSaving false
      (tryCatch body (fun s' =>
         setError (Some "Failed to save settings. Please try again.")
           (record (Logged "Error saving settings:") s'))).

(** The history record and the rows of [handleCreateNewVersion]. *)
Definition newVersionHistory (now uuid newVersion : string) (cfg : Config.t)
    (s : State) : VersionHistory.t :=
  VersionHistory.mk uuid (Config.id cfg) newVersion (newVersionChanges s)
    cfg now (userId s).

Definition historyRow (h : VersionHistory.t) (now user : string)
  : list (string * Value) :=
  [("id", VString (VersionHistory.id h));
   ("style_guide_id", VString (VersionHistory.styleGuideId h));
   ("version", VString (VersionHistory.version h));
   ("changes", VString (VersionHistory.changes h));
   ("snapshot", VConfig (VersionHistory.snapshot h));
   ("created_at", VString now);
   ("created_by", VString user)].

Definition withVersion (newVersion now : string) (cfg : Config.t) : Config.t :=
  Config.mk (Config.id cfg) (Config.name cfg) (Config.description cfg)
    newVersion
    (Config.activeColorScheme cfg) (Config.activeTypography cfg)
    (Config.activeSpacing cfg) (Config.activeBorderRadius cfg)
    (Config.activeShadow cfg) (Config.activeAnimation cfg)
    (Config.customFeatures cfg) (Config.createdAt cfg) now
    (Config.createdBy cfg).

Definition createFailed (s : State) : State :=
  setError (Some "Failed to create new version. Please try again.")
    (record (Logged "Error creating new version:") s).

(** [handleCreateNewVersion]; [inserted] is the reply to the insert of the
    history record and [updated] the reply to the update of the
    configuration row.  The result is [None] when the version string leaves
    the fragment of [Number] that is followed (see [bumpPatch]).  The timer
    that hides the success message is not followed. *)
Definition handleCreateNewVersion (now uuid : string)
    (inserted updated : Reply unit) (s : State) : option State :=
  if isBlank (newVersionChanges s) then
    Some (setError (Some "Please enter changes for the new version.") s)
  else
    let s0 := setError None (setIsSaving true s) in
    match config s with
    | None => Some (setIsSaving false (createFailed s0))
    | Some cfg =>
        match bumpPatch (version s) with
        | None => None
        | Some newVersion =>
            let h := newVersionHistory now uuid newVersion cfg s in
            let body :=
              await (Insert "version_histories"
                       (FieldsRow (historyRow h now (userId s))))
                inserted s0
              >>= throwIfError inserted
              >>= fun s1 =>
                await
                  (Update configTable
                     (FieldsRow
                        [("version", VString newVersion);
                         ("updated_at", VString now)])
                     (Config.id cfg))
                  updated s1
              >>= throwIfError updated
              >>= fun s2 =>
                Next
                  (setSuccessMessage (Some "New version created successfully!")
                     (setIsVersionDialogOpen false
                        (setNewVersionChanges ""
                           (setVersionHistory (h :: versionHistory s)
                              (setVersion newVersion
                                 (setConfig
                                    (Some (withVersion newVersion now cfg))
                                    s2)))))) in
            Some (setIsSaving false (tryCatch body createFailed))
        end
    end.

End Settings.

(** The version string of three numbers. *)
Definition semver (major minor patch : N) : string :=
  render major ++ "." ++ render minor ++ "." ++ render patch.

(** Effects that are neither a request nor a write to the collection, the
    marker, the configuration or an error cell. *)
Definition isConsole (e : Event) : bool :=
  match e with Logged _ => true | _ => false end.

(** Effects that write the configuration: the store's setter, or an update
    of the configuration row. *)
Definition touchesConfig (e : Event) : bool :=
  match e with
  | SetConfig _ => true
  | Sent (Update table _ _) => String.eqb table configTable
  | _ => false
  end.

(** No character of the string is the separator of version segments. *)
Fixpoint noDot (s : string) : bool :=
  match s with
  | EmptyString => true
  | String ch rest => negb (Ascii.eqb ch ".") && noDot rest
  end.

(** ** Sample data *)

Definition defaultScale : Token.t :=
  Token.mk "tok-1" "Default Scale" 1 [("4", "1rem")]
    "2024-01-01T00:00:00.000Z" "2024-01-01T00:00:00.000Z" "user-1".

Definition wideScale : Token.t :=
  Token.mk "tok-2" "Wide Scale" 3 [("4", "2rem")]
    "2024-01-02T00:00:00.000Z" "2024-01-05T00:00:00.000Z" "user-1".

(** A record created while no user was signed in: [userId] was still the
    empty string. *)
Definition anonymousScale : Token.t :=
  Token.mk "tok-3" "Anonymous Scale" 1 [("4", "1rem")]
    "2024-01-03T00:00:00.000Z" "2024-01-03T00:00:00.000Z" "".

Definition sampleConfig : Config.t :=
  Config.mk "cfg-1" "Style Guide" "The style guide" "1.0.0"
    None None (Some "tok-1") None None None
    [("customCursor", false); ("customScrollbar", false)]
    "2024-01-01T00:00:00.000Z" "2024-01-01T00:00:00.000Z" "user-1".

(** A spacing page showing two records, with [tok-1] active both in memory
    and in the configuration. *)
Definition samplePage : Page :=
  mkPage [defaultScale; wideScale] (Some defaultScale) (Some sampleConfig)
    None false false None "user-1" false None false false [].

(** The same page before any configuration was loaded or created. *)
Definition pageWithoutConfig : Page :=
  mkPage [defaultScale; wideScale] None None
    None false false None "user-1" false None false false [].

(** The configuration refers to [tok-1] while the in-memory marker is on
    [tok-2]. *)
Definition pageMarkerElsewhere : Page :=
  mkPage [defaultScale; wideScale] (Some wideScale) (Some sampleConfig)
    None false false None "user-1" false None false false [].

(** The configuration refers to [tok-1]; nothing is loaded yet and no marker
    is set. *)
Definition pageBeforeLoad : Page :=
  mkPage [] None (Some sampleConfig)
    None true false None "user-1" false None false false [].

(** The editor is open on [anonymousScale]. *)
Definition pageEditingAnonymous : Page :=
  mkPage [anonymousScale] None None
    None false true (Some anonymousScale) "user-1" false None false false [].

(** The editor is open on [defaultScale]. *)
Definition pageEditingDefault : Page :=
  mkPage [defaultScale; wideScale] (Some defaultScale) (Some sampleConfig)
    None false true (Some defaultScale) "user-1" false None false false [].

Definition sampleSettings (changes : string) : Settings.State :=
  Settings.mk (Some sampleConfig) None "Style Guide" "The style guide" "1.0.0"
    [("customCursor", false); ("customScrollbar", false)] [] true changes
    false "user-1" None [].

Definition emptySettings : Settings.State :=
  Settings.mk None None "Style Guide" "" "1.0.0"
    [("customCursor", false); ("customScrollbar", false)] [] false ""
    false "user-1" None [].

(** ** The rest of the token page and of the notifier hook *)

Definition setEditing (t : option Token.t) (s : Page) : Page :=
  mkPage (items s) (activeItem s) (config s) (error s) (isLoading s)
    (isEditorOpen s) t (userId s) (editorLoading s)
    (errorMessage s) (isConnected s) (isRealTimeEnabled s) (events s).

Definition setIsConnected (b : bool) (s : Page) : Page :=
  mkPage (items s) (activeItem s) (config s) (error s) (isLoading s)
    (isEditorOpen s) (editing s) (userId s) (editorLoading s)
    (errorMessage s) b (isRealTimeEnabled s) (events s).

(** [handleCreateNew] and [handleEdit] of a token page. *)
Definition handleCreateNew (s : Page) : Page :=
  setIsEditorOpen true (setEditing None s).

Definition handleEdit (t : Token.t) (s : Page) : Page :=
  setIsEditorOpen true (setEditing (Some t) s).

(** The effect of [useStyleGuideSocket] on [[userId, isRealTimeEnabled]]:
    the state after its body ran, and whether the one-second timer was
    started. *)
Definition socketEffect (s : Page) : Page * bool :=
  if String.eqb (userId s) "" || negb (isRealTimeEnabled s)
  then (setIsConnected false s, false)
  else (s, true).

(** The callback of that timer. *)
Definition socketTimer (s : Page) : Page :=
  consoleLine "WebSocket connected" (setIsConnected true s).

(** ** The form of a scale editor (SpacingEditor, BorderRadiusEditor,
    ShadowEditor) *)

(** A JavaScript object is kept as the list of its properties.  The order in
    which an engine enumerates the keys is not followed; properties are read
    with [lookup]. *)

(** [o[key]] *)
Fixpoint lookup (key : string) (o : Payload) : option string :=
  match o with
  | [] => None
  | (k, v) :: rest => if String.eqb k key then Some v else lookup key rest
  end.

(** [{ ...o, [key]: value }] *)
Fixpoint setKey (key value : string) (o : Payload) : Payload :=
  match o with
  | [] => [(key, value)]
  | (k, v) :: rest =>
      if String.eqb k key then (key, value) :: rest
      else (k, v) :: setKey key value rest
  end.


Record EditorForm : Type := mkForm {
  formName : string;
  scale : Payload;
  newScaleKey : string;
  newScaleValue : string
}.

(** The initial cells of the editor: [spacing?.name || ''] and
    [spacing?.scale || defaults]. *)
Definition openForm (existing : option Token.t) (defaults : Payload)
  : EditorForm :=
  mkForm
    (match existing with Some r => Token.name r | None => "" end)
    (match existing with Some r => Token.payload r | None => defaults end)
    "" "".

Definition handleAddScale (f : EditorForm) : EditorForm :=
  if isBlank (newScaleKey f) then f
  else
    mkForm (formName f) (setKey (newScaleKey f) (newScaleValue f) (scale f))
      "" "".


Definition handleScaleValueChange (key value : string) (f : EditorForm)
  : EditorForm :=
  mkForm (formName f) (setKey key value (scale f)) (newScaleKey f)
    (newScaleValue f).

(** The [onChange] handlers of the two inputs of a new step. *)
Definition typeScaleKey (text : string) (f : EditorForm) : EditorForm :=
  mkForm (formName f) (scale f) text (newScaleValue f).

Definition typeScaleValue (text : string) (f : EditorForm) : EditorForm :=
  mkForm (formName f) (scale f) (newScaleKey f) text.

(** Submitting the form: [handleSubmit] reads the cells [name] and [scale]. *)
Definition submitForm (c : Category) (now uuid : string) (f : EditorForm)
    (written : Reply unit) (s : Page) : Page :=
  handleSubmit c now uuid (formName f) (scale f) written s.

(** ** The rest of the settings page *)

(** [prev[feature]] and [{ ...prev, [feature]: value }] on the feature
    flags. *)
Fixpoint flag (feature : string) (flags : list (string * bool)) : option bool :=
  match flags with
  | [] => None
  | (k, v) :: rest => if String.eqb k feature then Some v else flag feature rest
  end.

Fixpoint setFlag (feature : string) (value : bool)
    (flags : list (string * bool)) : list (string * bool) :=
  match flags with
  | [] => [(feature, value)]
  | (k, v) :: rest =>
      if String.eqb k feature then (feature, value) :: rest
      else (k, v) :: setFlag feature value rest
  end.

(** [!prev[feature]]: an absent flag reads [undefined], whose negation is
    [true]. *)
Definition negated (v : option bool) : bool :=
  match v with
  | Some b => negb b
  | None => true
  end.

Definition setCustomFeatures (flags : list (string * bool))
    (s : Settings.State) : Settings.State :=
  Settings.mk (Settings.config s) (Settings.error s) (Settings.name s)
    (Settings.description s) (Settings.version s) flags
    (Settings.versionHistory s) (Settings.isVersionDialogOpen s)
    (Settings.newVersionChanges s) (Settings.isSaving s) (Settings.userId s)
    (Settings.successMessage s) (Settings.events s).

Definition handleToggleFeature (feature : string) (s : Settings.State)
  : Settings.State :=
  setCustomFeatures
    (setFlag feature (negated (flag feature (Settings.customFeatures s)))
       (Settings.customFeatures s))
    s.

(** The requests among the effects of the settings page. *)
Definition settingsRequests (l : list Settings.Event) : list Request :=
  flat_map (fun e => match e with Settings.Sent r => [r] | _ => [] end) l.

(** The requests among the effects of a token page. *)
Definition requests (l : list Event) : list Request :=
  flat_map (fun e => match e with Sent r => [r] | _ => [] end) l.

(** ** Feedback page ([src/app/admin/feedback/page.tsx]) and its detail
    dialog ([src/components/Admin/FeedbackDetail.tsx]) *)

Module FeedbackComment.
Record t : Type := mk {
  id : string;
  feedbackId : string;
  content : string;
  createdAt : string;
  createdBy : string
}.
End FeedbackComment.

Module Feedback.

(** [type], [status] and [priority] are unions of string literals; they are
    strings when the code runs.  [comments] is optional: [None] is
    [undefined]. *)
Record t : Type := mk {
  id : string;
  title : string;
  description : string;
  type : string;
  status : string;
  priority : string;
  assignedTo : option string;
  comments : option (list FeedbackComment.t);
  createdAt : string;
  updatedAt : string;
  createdBy : string
}.

(** [feedback.comments || []] *)
Definition commentsOf (f : t) : list FeedbackComment.t :=
  match comments f with
  | Some l => l
  | None => []
  end.

(** [{ ...feedback, comments: [...(feedback.comments || []), comment] }] *)
Definition withComment (cm : FeedbackComment.t) (f : t) : t :=
  mk (id f) (title f) (description f) (type f) (status f) (priority f)
    (assignedTo f) (Some (commentsOf f ++ [cm])%list) (createdAt f)
    (updatedAt f)
    (createdBy f).

(** [{ ...feedback, status, updatedAt }] *)
Definition withStatus (newStatus now : string) (f : t) : t :=
  mk (id f) (title f) (description f) (type f) newStatus (priority f)
    (assignedTo f) (comments f) (createdAt f) now (createdBy f).

Inductive Request : Type :=
  | DeleteComments (feedbackId : string)
  | DeleteFeedback (id : string)
  | UpdateStatus (id newStatus now : string)
  | InsertComment (cm : FeedbackComment.t).

Inductive Event : Type :=
  | Sent (r : Request)
  | SetFeedbacks (l : list t)
  | SetViewing (f : option t)
  | SetError (msg : option string)
  | SetCommentError (msg : option string)
  | Logged (line : string).

(** The cells of the page that its handlers write, the cells of the detail
    dialog, and those of the notifier hook. *)
Record State : Type := mkState {
  feedbacks : list t;
  error : option string;
  isFormOpen : bool;
  isDetailOpen : bool;
  editingFeedback : option t;
  viewingFeedback : option t;
  userId : string;
  commentText : string;
  isSubmittingComment : bool;
  commentError : option string;
  isConnected : bool;
  isRealTimeEnabled : bool;
  events : list Event
}.

Definition record (e : Event) (s : State) : State :=
  mkState (feedbacks s) (error s) (isFormOpen s) (isDetailOpen s)
    (editingFeedback s) (viewingFeedback s) (userId s) (commentText s)
    (isSubmittingComment s) (commentError s) (isConnected s)
    (isRealTimeEnabled s) (events s ++ [e]).

Definition setFeedbacks (l : list t) (s : State) : State :=
  record (SetFeedbacks l)
    (mkState l (error s) (isFormOpen s) (isDetailOpen s)
       (editingFeedback s) (viewingFeedback s) (userId s) (commentText s)
       (isSubmittingComment s) (commentError s) (isConnected s)
       (isRealTimeEnabled s) (events s)).

Definition setViewingFeedback (f : option t) (s : State) : State :=
  record (SetViewing f)
    (mkState (feedbacks s) (error s) (isFormOpen s) (isDetailOpen s)
       (editingFeedback s) f (userId s) (commentText s)
       (isSubmittingComment s) (commentError s) (isConnected s)
       (isRealTimeEnabled s) (events s)).

Definition setError (msg : option string) (s : State) : State :=
  record (SetError msg)
    (mkState (feedbacks s) msg (isFormOpen s) (isDetailOpen s)
       (editingFeedback s) (viewingFeedback s) (userId s) (commentText s)
       (isSubmittingComment s) (commentError s) (isConnected s)
       (isRealTimeEnabled s) (events s)).

Definition setCommentError (msg : option string) (s : State) : State :=
  record (SetCommentError msg)
    (mkState (feedbacks s) (error s) (isFormOpen s) (isDetailOpen s)
       (editingFeedback s) (viewingFeedback s) (userId s) (commentText s)
       (isSubmittingComment s) msg (isConnected s)
       (isRealTimeEnabled s) (events s)).

Definition setIsFormOpen (b : bool) (s : State) : State :=
  mkState (feedbacks s) (error s) b (isDetailOpen s)
    (editingFeedback s) (viewingFeedback s) (userId s) (commentText s)
    (isSubmittingComment s) (commentError s) (isConnected s)
    (isRealTimeEnabled s) (events s).

Definition setIsDetailOpen (b : bool) (s : State) : State :=
  mkState (feedbacks s) (error s) (isFormOpen s) b
    (editingFeedback s) (viewingFeedback s) (userId s) (commentText s)
    (isSubmittingComment s) (commentError s) (isConnected s)
    (isRealTimeEnabled s) (events s).

Definition setCommentText (text : string) (s : State) : State :=
  mkState (feedbacks s) (error s) (isFormOpen s) (isDetailOpen s)
    (editingFeedback s) (viewingFeedback s) (userId s) text
    (isSubmittingComment s) (commentError s) (isConnected s)
    (isRealTimeEnabled s) (events s).

Definition setIsSubmittingComment (b : bool) (s : State) : State :=
  mkState (feedbacks s) (error s) (isFormOpen s) (isDetailOpen s)
    (editingFeedback s) (viewingFeedback s) (userId s) (commentText s)
    b (commentError s) (isConnected s)
    (isRealTimeEnabled s) (events s).

Definition await {A : Type} (r : Request) (reply : Reply A) (s : State)
  : Flow State :=
  awaiting (record (Sent r) s) reply.

(** The notifier as this page calls it (the body of [emitUpdate]). *)
Definition emitUpdate {A : Type} (type action : string) (data : A) (s : State)
  : State :=
  if negb (isConnected s) || negb (isRealTimeEnabled s) then s
  else record (Logged ("Emitting update: " ++ type ++ " " ++ action)) s.

Definition deleteFailed (s : State) : State :=
  setError (Some "Failed to delete feedback. Please try again.")
    (record (Logged "Error deleting feedback:") s).

(** [handleDelete]: the comments of the feedback are deleted first, then the
    feedback. *)
Definition handleDelete (confirmed : bool)
    (commentsDeleted deleted : Reply unit) (id : string) (s : State) : State :=
  if negb confirmed then s
  else
    let body :=
      await (DeleteComments id) commentsDeleted s
      >>= throwIfError commentsDeleted
      >>= await (DeleteFeedback id) deleted
      >>= throwIfError deleted
      >>= fun s1 =>
        Next
          (emitUpdate "feedback" "remove" id
             (setFeedbacks
                (filter (fun f => negb (String.eqb (Feedback.id f) id))
                   (feedbacks s))
                s1)) in
    tryCatch body deleteFailed.

(** [feedbacks.map(f => f.id === id ? { ...f, status, updatedAt: new
    Date().toISOString() } : f)]: the clock is read once for each feedback
    that has the id; [clock k] is the reading for the match number [k]. *)
Fixpoint restamp (id newStatus : string) (clock : nat -> string) (k : nat)
    (l : list t) : list t :=
  match l with
  | [] => []
  | f :: rest =>
      if String.eqb (Feedback.id f) id
      then withStatus newStatus (clock k) f
             :: restamp id newStatus clock (S k) rest
      else f :: restamp id newStatus clock k rest
  end.

(** [handleStatusChange]; [now1] is the clock reading sent to the gateway,
    [clock] gives the readings taken while the collection is mapped, and
    [now3] is the reading for the viewed feedback. *)
Definition handleStatusChange (now1 : string) (clock : nat -> string)
    (now3 : string) (updated : Reply unit) (id newStatus : string) (s : State)
  : State :=
  let body :=
    await (UpdateStatus id newStatus now1) updated s
    >>= throwIfError updated
    >>= fun s1 =>
      let s2 :=
        setFeedbacks (restamp id newStatus clock 0 (feedbacks s)) s1 in
      let s3 :=
        match viewingFeedback s with
        | Some v =>
            if String.eqb (Feedback.id v) id
            then setViewingFeedback (Some (withStatus newStatus now3 v)) s2
            else s2
        | None => s2
        end in
      Next (emitUpdate "feedback" "update" (id, newStatus) s3) in
  tryCatch body (fun s' =>
    setError (Some "Failed to update feedback status. Please try again.")
      (record (Logged "Error updating feedback status:") s')).

(** [handleAddComment], the [onAddComment] callback of the detail dialog. *)
Definition handleAddComment (feedbackId : string) (cm : FeedbackComment.t)
    (s : State) : State :=
  let s1 :=
    setFeedbacks
      (map (fun f =>
              if String.eqb (Feedback.id f) feedbackId
              then withComment cm f else f)
         (feedbacks s))
      s in
  let s2 :=
    match viewingFeedback s with
    | Some v =>
        if String.eqb (Feedback.id v) feedbackId
        then setViewingFeedback (Some (withComment cm v)) s1
        else s1
    | None => s1
    end in
  emitUpdate "feedback" "comment" (feedbackId, cm) s2.

(** [handleSubmitComment] of the detail dialog.  The page renders the dialog
    only while [viewingFeedback] is set, with [feedback={viewingFeedback}],
    [userId={userId}] and [onAddComment={handleAddComment}]; without a
    viewed feedback there is no dialog to submit. *)
Definition handleSubmitComment (now uuid : string) (inserted : Reply unit)
    (s : State) : State :=
  match viewingFeedback s with
  | None => s
  | Some feedback =>
      if isBlank (commentText s) then
        setCommentError (Some "Please enter a comment.") s
      else
        let s0 := setCommentError None (setIsSubmittingComment true s) in
        let newComment :=
          FeedbackComment.mk uuid (Feedback.id feedback) (commentText s) now
            (userId s) in
        let body :=
          await (InsertComment newComment) inserted s0
          >>= throwIfError inserted
          >>= fun s1 =>
            Next
              (setCommentText ""
                 (handleAddComment (Feedback.id feedback) newComment s1)) in
        setIsSubmittingComment false
          (tryCatch body (fun s' =>
             setCommentError (Some "Failed to add comment. Please try again.")
               (record (Logged "Error adding comment:") s')))
  end.

(** The requests among the effects of the page. *)
Definition requests (l : list Event) : list Request :=
  flat_map (fun e => match e with Sent r => [r] | _ => [] end) l.

End Feedback.

(** *** More sample data *)

Definition sampleComment : FeedbackComment.t :=
  FeedbackComment.mk "com-1" "fb-1" "Seen on the spacing page"
    "2024-01-04T00:00:00.000Z" "user-2".

Definition sampleFeedback : Feedback.t :=
  Feedback.mk "fb-1" "Button overlaps" "The save button overlaps the form"
    "bug" "open" "high" None (Some [sampleComment])
    "2024-01-03T00:00:00.000Z" "2024-01-04T00:00:00.000Z" "user-1".

Definition otherFeedback : Feedback.t :=
  Feedback.mk "fb-2" "Dark mode" "Please add a dark mode"
    "feature" "open" "low" None None
    "2024-01-05T00:00:00.000Z" "2024-01-05T00:00:00.000Z" "user-2".

(** The feedback page with the detail dialog open on [fb-1] and a comment
    typed. *)
Definition sampleFeedbackPage (text : string) : Feedback.State :=
  Feedback.mkState [otherFeedback; sampleFeedback] None false true None
    (Some sampleFeedback) "user-1" text false None false false [].

Definition sampleForm : EditorForm :=
  openForm (Some defaultScale) [("0", "0px")].

(** A spacing page whose marker is on [tok-2], under the configuration that
    the first settings save placed in memory. *)
Definition pageAfterFirstSave : Page :=
  mkPage [] (Some wideScale)
    (Some (Settings.newConfig "2024-02-01T00:00:00.000Z" "cfg-9" emptySettings))
    None true false None "user-1" false None false false [].

(** Three of the characters [trim] removes, in UTF-8. *)
Definition noBreakSpace : string :=
  String (ascii_of_nat 194) (String (ascii_of_nat 160) EmptyString).

Definition ideographicSpace : string :=
  String (ascii_of_nat 227)
    (String (ascii_of_nat 128) (String (ascii_of_nat 128) EmptyString)).

Definition lineSeparator : string :=
  String (ascii_of_nat 226)
    (String (ascii_of_nat 128) (String (ascii_of_nat 168) EmptyString)).

(** ** Basic facts *)

Open Scope list_scope.

Lemma activeOf_withActive (c : Category) (v : option string) (cfg : Config.t) :
  activeOf c (withActive c v cfg) = v.
Proof. destruct c; reflexivity. Qed.

Lemma activeOf_withActive_other (c c' : Category) (v : option string)
    (cfg : Config.t) :
  c <> c' -> activeOf c' (withActive c v cfg) = activeOf c' cfg.
Proof. destruct c, c'; intros H; try reflexivity; now elim H. Qed.

(** [trim] removes more than spaces and tabs: a text made of a no-break space
    (U+00A0), an ideographic space (U+3000) and a line separator (U+2028) is
    blank, and a text with one letter among them is not. *)
Lemma isBlank_unicode_spaces :
  isBlank (noBreakSpace ++ " " ++ ideographicSpace ++ lineSeparator)%string
  = true /\
  isBlank (noBreakSpace ++ "a" ++ ideographicSpace)%string = false.
Proof. split; reflexivity. Qed.

(** The notifier leaves every cell of the state alone; at most one console
    line is added to the history. *)
Lemma emitUpdate_inert {A : Type} (type action : string) (data : A) (s : Page) :
  let s' := emitUpdate type action data s in
  items s' = items s /\ activeItem s' = activeItem s /\ config s' = config s /\
  error s' = error s /\ errorMessage s' = errorMessage s /\
  editing s' = editing s /\ isEditorOpen s' = isEditorOpen s /\
  (events s' = events s \/
   events s' = events s ++
     [Logged ("Emitting update: " ++ type ++ " " ++ action)%string]).
Proof.
  unfold emitUpdate.
  destruct (negb (isConnected s) || negb (isRealTimeEnabled s)); cbn;
    repeat split; auto.
Qed.

Lemma emitUpdate_events {A : Type} (type action : string) (data : A) (s : Page) :
  exists tail, events (emitUpdate type action data s) = events s ++ tail /\
               forallb isConsole tail = true.
Proof.
  unfold emitUpdate.
  destruct (negb (isConnected s) || negb (isRealTimeEnabled s)).
  - exists []. now rewrite app_nil_r.
  - eexists. split; [reflexivity|reflexivity].
Qed.

Ltac flatten_events := cbn; rewrite <- ?app_assoc; cbn.

(** ** Active-selection controller *)

(** C5 (as the code has it): when no configuration record exists,
    [handleSetActive] leaves the Register absent and sends nothing to the
    gateway, but it does set the in-memory active marker to the chosen
    record; no error is surfaced. *)
Theorem setActive_without_config (c : Category) (persisted : Reply unit)
    (t : Token.t) (s : Page) :
  config s = None ->
  let s' := handleSetActive c persisted t s in
  config s' = None /\ activeItem s' = Some t /\ error s' = error s /\
  items s' = items s /\
  exists tail, events s' = events s ++ SetActive (Some t) :: tail /\
               forallb isConsole tail = true.
Proof.
  intros Hcfg. unfold handleSetActive. rewrite Hcfg. cbn.
  destruct (emitUpdate_inert (socketType c) "setActive" t (setActive (Some t) s))
    as (Hi & Ha & Hc & He & _).
  destruct (emitUpdate_events (socketType c) "setActive" t (setActive (Some t) s))
    as (tail & Hev & Htail).
  repeat split; try (cbn in *; congruence).
  exists tail. split; [|exact Htail].
  rewrite Hev. cbn. now rewrite <- app_assoc.
Qed.

Lemma setActive_without_config_witness :
  config pageWithoutConfig = None /\
  activeItem (handleSetActive Spacing (Resolved tt) wideScale pageWithoutConfig)
  = Some wideScale.
Proof.
  split; [reflexivity|].
  apply (setActive_without_config Spacing (Resolved tt) wideScale
           pageWithoutConfig).
  reflexivity.
Defined.

(** C5 (as stated) fails: with no configuration record, the in-memory active
    marker changes from none to the chosen record. *)
Lemma setActive_without_config_moves_marker :
  config pageWithoutConfig = None /\
  activeItem pageWithoutConfig = None /\
  activeItem (handleSetActive Spacing (Resolved tt) wideScale pageWithoutConfig)
  <> activeItem pageWithoutConfig.
Proof. repeat split. discriminate. Qed.

(** In every run of [handleSetActive] with a configuration record, the
    marker and the in-memory configuration are written before the request
    leaves, and the marker is never written again. *)
Lemma setActive_memory_first (c : Category) (persisted : Reply unit)
    (t : Token.t) (s : Page) (cfg : Config.t) :
  config s = Some cfg ->
  let s' := handleSetActive c persisted t s in
  activeItem s' = Some t /\
  config s' = Some (withActive c (Some (Token.id t)) cfg) /\
  exists tail,
    events s' = events s ++
      SetActive (Some t)
      :: SetConfig (Some (withActive c (Some (Token.id t)) cfg))
      :: Sent (Update configTable
                 (FieldsRow [(activeFieldName c, VString (Token.id t))])
                 (Config.id cfg))
      :: tail /\
    forall a, ~ In (SetActive a) tail.
Proof.
  intros Hcfg. unfold handleSetActive, await, awaiting. rewrite Hcfg.
  destruct persisted as [d|msg|]; cbn.
  1,2: match goal with
       | |- context [emitUpdate ?ty ?ac ?d ?st] =>
           destruct (emitUpdate_inert ty ac d st) as (_ & Ha & Hc & _);
           destruct (emitUpdate_events ty ac d st) as (tail & Hev & Htail);
           rewrite Ha, Hc, Hev
       end.
  1,2: repeat split; try reflexivity; exists tail; flatten_events;
       split; [reflexivity|];
       intros a Hin; rewrite forallb_forall in Htail;
       apply Htail in Hin; discriminate.
  repeat split. eexists. flatten_events. split; [reflexivity|].
  intros a [H|[H|[]]]; discriminate.
Qed.

(** C2 (the code at the failing reply): when the configuration update
    resolves with an error in its reply, [handleSetActive] has already set
    the marker and the in-memory configuration, keeps them, and surfaces
    nothing: the error cell is untouched and no [setError] call is made. *)
Theorem setActive_failed_persist_is_silent (c : Category) (message : string)
    (t : Token.t) (s : Page) (cfg : Config.t) :
  config s = Some cfg ->
  let s' := handleSetActive c (Failed message) t s in
  activeItem s' = Some t /\
  config s' = Some (withActive c (Some (Token.id t)) cfg) /\
  error s' = error s /\
  exists tail,
    events s' = events s ++
      [SetActive (Some t);
       SetConfig (Some (withActive c (Some (Token.id t)) cfg));
       Sent (Update configTable
               (FieldsRow [(activeFieldName c, VString (Token.id t))])
               (Config.id cfg))] ++ tail /\
    forallb isConsole tail = true.
Proof.
  intros Hcfg. unfold handleSetActive, await, awaiting. rewrite Hcfg. cbn.
  match goal with
  | |- context [emitUpdate ?ty ?ac ?d ?st] =>
      destruct (emitUpdate_inert ty ac d st) as (_ & Ha & Hc & He & _);
      destruct (emitUpdate_events ty ac d st) as (tail & Hev & Htail);
      rewrite Ha, Hc, He, Hev
  end.
  repeat split. exists tail. flatten_events. now split.
Qed.

Lemma setActive_failed_persist_is_silent_witness :
  config samplePage = Some sampleConfig /\
  error (handleSetActive Spacing (Failed "permission denied") wideScale
           samplePage) = None.
Proof.
  split; [reflexivity|].
  apply (setActive_failed_persist_is_silent Spacing "permission denied"
           wideScale samplePage sampleConfig).
  reflexivity.
Defined.

(** When the awaited update throws instead, the message is surfaced and the
    marker is still not rolled back. *)
Lemma setActive_thrown_persist_is_reported (c : Category) (t : Token.t)
    (s : Page) (cfg : Config.t) :
  config s = Some cfg ->
  let s' := handleSetActive c Thrown t s in
  activeItem s' = Some t /\
  error s' =
    Some ("Failed to set active " ++ noun c ++ ". Please try again.")%string.
Proof.
  intros Hcfg. unfold handleSetActive, await, awaiting. rewrite Hcfg.
  now cbn.
Qed.

(** C6: when the configuration refers to an id that is not in the freshly
    loaded collection, [fetchTokens] stores the collection and nothing else:
    the marker and the configuration are as before, and the only request is
    the select. *)
Theorem load_keeps_stale_reference (c : Category) (data : list Token.t)
    (s : Page) (cfg : Config.t) (a : string) :
  config s = Some cfg ->
  activeOf c cfg = Some a ->
  (forall t, In t data -> Token.id t <> a) ->
  let s' := fetchTokens c (Resolved data) s in
  activeItem s' = activeItem s /\
  config s' = Some cfg /\
  option_map (activeOf c) (config s') = Some (Some a) /\
  items s' = data /\
  events s' = events s ++ [Sent (Select (tableName c) "name"); SetItems data].
Proof.
  intros Hcfg Ha Hstale. unfold fetchTokens, await, awaiting. cbn.
  rewrite Hcfg, Ha.
  assert (Hfind : find (fun t => String.eqb (Token.id t) a) data = None).
  { destruct (find _ data) eqn:Hf; [|reflexivity].
    apply find_some in Hf. destruct Hf as [Hin Heq].
    apply String.eqb_eq in Heq. now elim (Hstale _ Hin). }
  rewrite Hfind.
  destruct (String.eqb a ""); cbn; rewrite ?Hcfg; cbn; rewrite ?Ha;
    repeat split; auto; now rewrite <- ?app_assoc.
Qed.

Lemma load_keeps_stale_reference_witness :
  activeItem
    (fetchTokens Spacing (Resolved [wideScale]) pageBeforeLoad)
  = None.
Proof.
  apply (load_keeps_stale_reference Spacing [wideScale]
           pageBeforeLoad sampleConfig "tok-1").
  - reflexivity.
  - reflexivity.
  - intros t [<-|[]]. discriminate.
Defined.

(** ** Deleting a record *)

(** [handleDelete] after a confirmed dialog and a successful gateway delete,
    when the marker is not on the deleted record: the record leaves the
    collection and nothing else is touched. *)
Lemma delete_inactive (c : Category) (cleared : Reply unit) (d : unit)
    (id : string) (s : Page) :
  activeIs id (activeItem s) = false ->
  let s' := handleDelete c true (Resolved d) cleared id s in
  items s' = filter (fun t => negb (String.eqb (Token.id t) id)) (items s) /\
  activeItem s' = activeItem s /\ config s' = config s /\ error s' = error s /\
  exists tail,
    events s' = events s ++
      Sent (Delete (tableName c) id)
      :: SetItems (filter (fun t => negb (String.eqb (Token.id t) id)) (items s))
      :: tail /\
    forallb isConsole tail = true.
Proof.
  intros Hact. unfold handleDelete, await, awaiting. cbn. rewrite Hact. cbn.
  match goal with
  | |- context [emitUpdate ?ty ?ac ?dt ?st] =>
      destruct (emitUpdate_inert ty ac dt st) as (Hi & Ha & Hc & He & _);
      destruct (emitUpdate_events ty ac dt st) as (tail & Hev & Htail);
      rewrite Hi, Ha, Hc, He, Hev
  end.
  repeat split. exists tail. flatten_events. now split.
Qed.

(** C3 (as the code has it): a confirmed delete that the gateway accepts, of
    the record that both the in-memory marker and the Register refer to,
    removes the record from the collection, sets the marker to none, sets the
    Register's field to null in memory and sends the gateway the update that
    nulls the field of the configuration row. *)
Theorem delete_active_clears_register (c : Category) (cleared : Reply unit)
    (d : unit) (id : string) (s : Page) (cfg : Config.t) :
  activeIs id (activeItem s) = true ->
  config s = Some cfg ->
  activeOf c cfg = Some id ->
  let s' := handleDelete c true (Resolved d) cleared id s in
  items s' = filter (fun t => negb (String.eqb (Token.id t) id)) (items s) /\
  activeItem s' = None /\
  config s' = Some (withActive c None cfg) /\
  option_map (activeOf c) (config s') = Some None /\
  In (Sent (Update configTable (FieldsRow [(activeFieldName c, VNull)])
              (Config.id cfg)))
     (events s').
Proof.
  intros Hact Hcfg Href. unfold handleDelete, await, awaiting. cbn.
  rewrite Hact, Hcfg. unfold refersTo. rewrite Href, String.eqb_refl.
  destruct cleared as [d'|msg|]; cbn.
  1,2: match goal with
       | |- context [emitUpdate ?ty ?ac ?dt ?st] =>
           destruct (emitUpdate_inert ty ac dt st) as (Hi & Ha & Hc & _);
           destruct (emitUpdate_events ty ac dt st) as (tail & Hev & _);
           rewrite Hi, Ha, Hc, Hev
       end.
  all: cbn; rewrite activeOf_withActive; repeat split;
    rewrite ?in_app_iff; cbn; tauto.
Qed.

Lemma delete_active_clears_register_witness :
  activeItem (handleDelete Spacing true (Resolved tt) (Resolved tt) "tok-1"
                samplePage) = None.
Proof.
  apply (delete_active_clears_register Spacing (Resolved tt) tt "tok-1"
           samplePage sampleConfig); reflexivity.
Defined.

(** C3 (as stated) fails: the Register refers to [tok-1], the delete of
    [tok-1] succeeds, yet the marker is not none afterwards and the Register
    still refers to [tok-1], because the marker was on another record. *)
Lemma delete_referenced_keeps_register :
  let s' :=
    handleDelete Spacing true (Resolved tt) (Resolved tt) "tok-1"
      pageMarkerElsewhere in
  option_map (activeOf Spacing) (config pageMarkerElsewhere)
    = Some (Some "tok-1") /\
  items s' = [wideScale] /\
  activeItem s' <> None /\
  option_map (activeOf Spacing) (config s') = Some (Some "tok-1") /\
  events s' = [Sent (Delete "spacings" "tok-1"); SetItems [wideScale]].
Proof. cbv. repeat split. discriminate. Qed.

(** Outside the one case in which the marker and the Register both refer to
    the id of a confirmed, accepted delete, [handleDelete] writes the
    configuration neither in memory nor through the gateway. *)
Lemma delete_frame (c : Category) (confirmed : bool)
    (deleted cleared : Reply unit) (id : string) (s : Page) :
  confirmed && succeeded deleted && activeIs id (activeItem s)
  && match config s with Some cfg => refersTo c id cfg | None => false end
  = false ->
  let s' := handleDelete c confirmed deleted cleared id s in
  config s' = config s /\
  exists post, events s' = events s ++ post /\
               existsb touchesConfig post = false.
Proof.
  unfold handleDelete, await, awaiting, emitUpdate.
  destruct confirmed; cbn;
    [|intros _; split; [reflexivity|exists []; now rewrite app_nil_r]].
  destruct deleted as [d|msg|]; cbn.
  2,3: intros _; split; [reflexivity|];
       eexists; rewrite <- !app_assoc; split; reflexivity.
  destruct (activeIs id (activeItem s)); cbn.
  - destruct (config s) as [cfg|] eqn:Hcfg; [destruct (refersTo c id cfg)|];
      cbn; try discriminate; intros _;
      destruct (isConnected s), (isRealTimeEnabled s); cbn;
      (split; [now rewrite ?Hcfg|]);
      eexists; rewrite <- !app_assoc; split; reflexivity.
  - intros _; destruct (isConnected s), (isRealTimeEnabled s); cbn;
      (split; [reflexivity|]);
      eexists; rewrite <- !app_assoc; split; reflexivity.
Qed.

(** C10: [handleDelete] writes the configuration, in memory or through the
    gateway, only when the marker and the Register both refer to the deleted
    id; and when the Register refers to it but the marker is none or on
    another record, a delete that the gateway accepts removes the record
    and leaves the Register referring to the deleted id, with no request
    about the configuration and no error. *)
Theorem delete_clears_register_only_when_active (c : Category)
    (confirmed : bool) (deleted cleared : Reply unit) (id : string)
    (s : Page) :
  let s' := handleDelete c confirmed deleted cleared id s in
  (exists post,
     events s' = events s ++ post /\
     (config s' <> config s \/ existsb touchesConfig post = true ->
      activeIs id (activeItem s) = true /\
      exists cfg, config s = Some cfg /\ activeOf c cfg = Some id)) /\
  (forall cfg,
     config s = Some cfg -> activeOf c cfg = Some id ->
     activeIs id (activeItem s) = false ->
     confirmed = true -> succeeded deleted = true ->
     items s' = filter (fun t => negb (String.eqb (Token.id t) id)) (items s) /\
     config s' = Some cfg /\
     option_map (activeOf c) (config s') = Some (Some id) /\
     error s' = error s /\
     exists tail,
       events s' = events s ++
         Sent (Delete (tableName c) id)
         :: SetItems (filter (fun t => negb (String.eqb (Token.id t) id))
                        (items s))
         :: tail /\
       forallb isConsole tail = true).
Proof.
  cbn zeta. split.
  - destruct (confirmed && succeeded deleted && activeIs id (activeItem s)
              && match config s with
                 | Some cfg => refersTo c id cfg
                 | None => false
                 end) eqn:Hcase.
    + apply andb_prop in Hcase. destruct Hcase as [Hcase Href].
      apply andb_prop in Hcase. destruct Hcase as [Hcase Hact].
      apply andb_prop in Hcase. destruct Hcase as [-> Hdel].
      destruct deleted as [d|msg|]; try discriminate.
      destruct (config s) as [cfg|] eqn:Hcfg; try discriminate.
      unfold refersTo in Href.
      destruct (activeOf c cfg) as [a|] eqn:Ha; try discriminate.
      apply String.eqb_eq in Href. subst a.
      assert (Hpost : exists post,
                 events (handleDelete c true (Resolved d) cleared id s)
                 = events s ++ post).
      { unfold handleDelete, await, awaiting, emitUpdate. cbn.
        rewrite Hact, Hcfg. unfold refersTo. rewrite Ha, String.eqb_refl.
        destruct cleared; cbn;
          destruct (isConnected s), (isRealTimeEnabled s); cbn;
          eexists; rewrite <- !app_assoc; reflexivity. }
      destruct Hpost as [post Hpost]. exists post. split; [exact Hpost|].
      intros _. split; [exact Hact|]. now exists cfg.
    + destruct (delete_frame c confirmed deleted cleared id s Hcase)
        as (Hc & post & Hev & Hnone).
      exists post. split; [exact Hev|].
      intros [H|H]; [now elim H|]. rewrite Hnone in H. discriminate.
  - intros cfg Hcfg Href Hact -> Hdel.
    destruct deleted as [d|msg|]; try discriminate.
    destruct (delete_inactive c cleared d id s Hact)
      as (Hi & _ & Hc & He & Hev).
    rewrite Hi, Hc, He, Hcfg. cbn. rewrite Href. repeat split. exact Hev.
Qed.

Lemma delete_clears_register_only_when_active_witness :
  option_map (activeOf Spacing)
    (config (handleDelete Spacing true (Resolved tt) (Resolved tt) "tok-1"
               pageMarkerElsewhere))
  = Some (Some "tok-1").
Proof.
  apply (proj2 (delete_clears_register_only_when_active Spacing true
                  (Resolved tt) (Resolved tt) "tok-1" pageMarkerElsewhere)
           sampleConfig); reflexivity.
Defined.

(** ** Token editor *)

Lemma orElse_nonempty (a b : string) : a <> "" -> orElse a b = a.
Proof.
  intros H. unfold orElse. destruct (String.eqb a "") eqn:E; [|reflexivity].
  apply String.eqb_eq in E. now elim H.
Qed.

Lemma roundDouble_limit : roundDouble (2 ^ 53) = (2 ^ 53)%Z.
Proof. reflexivity. Qed.

(** On a safe integer the addition is exact. *)
Lemma plusOne_safe (n : Z) : isSafeInteger n -> plusOne n = (n + 1)%Z.
Proof.
  unfold isSafeInteger, plusOne. intros Hn.
  assert (Hcase : (Z.abs (n + 1) < 2 ^ 53 \/ n + 1 = 2 ^ 53)%Z) by lia.
  destruct Hcase as [Hlt|Heq].
  - unfold roundDouble. apply Z.ltb_lt in Hlt. now rewrite Hlt.
  - rewrite Heq. apply roundDouble_limit.
Qed.

(** At 2^53 it is not: the sum rounds back to 2^53. *)
Lemma plusOne_at_limit : plusOne (2 ^ 53) = (2 ^ 53)%Z.
Proof. reflexivity. Qed.

(** C4: a submit of an editor, create or update, first clears the editor's
    message and then sends the gateway the write of the record it built (an
    update by the id of the edited record, or an insert).  If the gateway
    accepts it, the collection is written next, with the record replaced or
    appended.  If the gateway answers with an error, or the awaited call
    throws (then no request has left), the editor's error message is set and
    the collection is the one before the submit, never having been
    written. *)
Theorem write_precedes_collection_update (c : Category)
    (now uuid formName : string) (formPayload : Payload)
    (written : Reply unit) (s : Page) :
  let u := prepare (editing s) now uuid (userId s) formName formPayload in
  let write :=
    match editing s with
    | Some r => Update (tableName c) (TokenRow u) (Token.id r)
    | None => Insert (tableName c) (TokenRow u)
    end in
  let stored :=
    match editing s with
    | Some _ =>
        map (fun x => if String.eqb (Token.id x) (Token.id u) then u else x)
          (items s)
    | None => items s ++ [u]
    end in
  let message :=
    Some ("Failed to save " ++ noun c ++ ". Please try again.")%string in
  let s' := handleSubmit c now uuid formName formPayload written s in
  match written with
  | Resolved _ =>
      items s' = stored /\ errorMessage s' = None /\
      exists tail,
        events s' = events s
          ++ [SetErrorMessage None; Sent write; SetItems stored] ++ tail /\
        forallb isConsole tail = true
  | Failed _ =>
      items s' = items s /\ errorMessage s' = message /\
      events s' = events s
        ++ [SetErrorMessage None; Sent write;
            Logged ("Error saving " ++ noun c ++ ":")%string;
            SetErrorMessage message]
  | Thrown =>
      items s' = items s /\ errorMessage s' = message /\
      events s' = events s
        ++ [SetErrorMessage None;
            Logged ("Error saving " ++ noun c ++ ":")%string;
            SetErrorMessage message]
  end.
Proof.
  cbn zeta.
  unfold handleSubmit, handleSave, writeRequest, saveFailed, attempt,
    attempting.
  destruct written as [d|msg|]; cbn -[prepare].
  - destruct (editing s) as [r|] eqn:He; cbn -[prepare]; rewrite ?He;
      unfold emitUpdate; cbn -[prepare];
      destruct (isConnected s), (isRealTimeEnabled s); cbn -[prepare];
      (split; [reflexivity|]); (split; [reflexivity|]);
      eexists; rewrite <- ?app_assoc; cbn -[prepare]; split; reflexivity.
  - destruct (editing s) as [r|] eqn:He; cbn -[prepare];
      rewrite <- ?app_assoc; repeat split.
  - rewrite <- ?app_assoc. repeat split.
Qed.

Lemma write_precedes_collection_update_witness :
  items (handleSubmit Spacing "2024-02-01T00:00:00.000Z" "tok-9"
           "Default Scale" [("4", "1.5rem")] (Failed "permission denied")
           pageEditingDefault)
  = items pageEditingDefault.
Proof.
  exact (proj1 (write_precedes_collection_update Spacing
                  "2024-02-01T00:00:00.000Z" "tok-9" "Default Scale"
                  [("4", "1.5rem")] (Failed "permission denied")
                  pageEditingDefault)).
Defined.

(** What a page holds after an update that the gateway accepted. *)
Lemma update_resolved (c : Category) (now uuid formName : string)
    (formPayload : Payload) (d : unit) (s : Page) (r : Token.t) :
  editing s = Some r ->
  let u := prepare (Some r) now uuid (userId s) formName formPayload in
  let s' := handleSubmit c now uuid formName formPayload (Resolved d) s in
  items s' =
    map (fun x => if String.eqb (Token.id x) (Token.id u) then u else x)
      (items s) /\
  In (Sent (Update (tableName c) (TokenRow u) (Token.id r))) (events s').
Proof.
  intros He. cbn zeta.
  unfold handleSubmit, handleSave, writeRequest, attempt, attempting.
  rewrite He. cbn -[prepare]. rewrite He.
  unfold emitUpdate; cbn -[prepare];
    destruct (isConnected s), (isRealTimeEnabled s); cbn -[prepare];
    (split; [reflexivity|]); rewrite !in_app_iff; cbn -[prepare]; tauto.
Qed.

(** C1 (as the code has it): on each of the six editors, for every existing
    record whose id, createdAt and createdBy are not the empty string and
    whose version is a safe integer, an update that the gateway accepts
    stores, through the gateway and in the collection, a record with the
    version of the old one plus one, the same id, createdAt and createdBy,
    and updatedAt set to the time of the write. *)
Theorem update_increments_version (c : Category) (now uuid formName : string)
    (formPayload : Payload) (d : unit) (s : Page) (r : Token.t) :
  editing s = Some r ->
  Token.id r <> "" -> Token.createdAt r <> "" -> Token.createdBy r <> "" ->
  isSafeInteger (Token.version r) ->
  let s' := handleSubmit c now uuid formName formPayload (Resolved d) s in
  exists u,
    Token.version u = (Token.version r + 1)%Z /\
    Token.id u = Token.id r /\
    Token.createdAt u = Token.createdAt r /\
    Token.createdBy u = Token.createdBy r /\
    Token.updatedAt u = now /\
    Token.name u = formName /\ Token.payload u = formPayload /\
    In (Sent (Update (tableName c) (TokenRow u) (Token.id r))) (events s') /\
    items s' =
      map (fun x => if String.eqb (Token.id x) (Token.id r) then u else x)
        (items s) /\
    (In r (items s) -> In u (items s')).
Proof.
  intros He Hid Hat Hby Hsafe.
  destruct (update_resolved c now uuid formName formPayload d s r He)
    as (Hitems & Hsent).
  set (u := prepare (Some r) now uuid (userId s) formName formPayload) in *.
  assert (Hu : u = Token.mk (Token.id r) formName (Token.version r + 1)%Z
                     formPayload (Token.createdAt r) now (Token.createdBy r)).
  { subst u. unfold prepare.
    rewrite !orElse_nonempty by assumption. now rewrite plusOne_safe. }
  assert (Hsame : Token.id u = Token.id r) by now rewrite Hu.
  exists u. cbn zeta. rewrite Hsame in Hitems.
  repeat split; try (rewrite Hu; reflexivity).
  - exact Hsent.
  - exact Hitems.
  - intros Hin. rewrite Hitems. apply in_map_iff. exists r.
    now rewrite String.eqb_refl.
Qed.

Lemma update_increments_version_witness :
  exists u,
    Token.version u = 2%Z /\
    In u (items (handleSubmit Spacing "2024-02-01T00:00:00.000Z" "tok-9"
                   "Default Scale" [("4", "1.5rem")] (Resolved tt)
                   pageEditingDefault)).
Proof.
  destruct (update_increments_version Spacing "2024-02-01T00:00:00.000Z"
              "tok-9" "Default Scale" [("4", "1.5rem")] tt pageEditingDefault
              defaultScale eq_refl)
    as (u & Hv & _ & _ & _ & _ & _ & _ & _ & _ & Hin);
    try discriminate; [reflexivity|].
  exists u. split; [exact Hv|]. apply Hin. now left.
Defined.

(** C1 (as stated) fails: a record whose createdBy is the empty string,
    edited by a signed-in user, is stored with that user as its creator. *)
Lemma update_replaces_empty_creator :
  let s' :=
    handleSubmit Spacing "2024-02-01T00:00:00.000Z" "tok-9" "Anonymous Scale"
      [("4", "1.5rem")] (Resolved tt) pageEditingAnonymous in
  let u :=
    Token.mk "tok-3" "Anonymous Scale" 2 [("4", "1.5rem")]
      "2024-01-03T00:00:00.000Z" "2024-02-01T00:00:00.000Z" "user-1" in
  editing pageEditingAnonymous = Some anonymousScale /\
  items s' = [u] /\
  events s' =
    [SetErrorMessage None; Sent (Update "spacings" (TokenRow u) "tok-3");
     SetItems [u]] /\
  Token.createdBy u <> Token.createdBy anonymousScale.
Proof. cbv. repeat split. discriminate. Qed.

(** ** Change notifier *)

(** C8: [emitUpdate] takes any category and action, the nine categories and
    five actions of the contract among them (when the code runs they are
    plain strings), and for every input it either returns the state as it is
    or adds one line to the console: no cell of the page or of the store is
    written and no request is made. *)
Theorem emitUpdate_is_inert (A : Type) (type action : string) (data : A)
    (s : Page) :
  let s' := emitUpdate type action data s in
  (s' = s \/
   s' = consoleLine ("Emitting update: " ++ type ++ " " ++ action)%string s) /\
  requests (events s') = requests (events s) /\
  (forall e, In e (events s') -> In e (events s) \/ isConsole e = true) /\
  items s' = items s /\ activeItem s' = activeItem s /\
  config s' = config s /\ error s' = error s /\
  errorMessage s' = errorMessage s /\ editing s' = editing s /\
  isEditorOpen s' = isEditorOpen s /\ isLoading s' = isLoading s /\
  editorLoading s' = editorLoading s /\ userId s' = userId s /\
  isConnected s' = isConnected s /\
  isRealTimeEnabled s' = isRealTimeEnabled s.
Proof.
  cbn zeta. unfold emitUpdate, requests.
  destruct (negb (isConnected s) || negb (isRealTimeEnabled s)); cbn.
  - repeat split; auto.
  - repeat split; auto.
    + rewrite flat_map_app. cbn. now rewrite app_nil_r.
    + intros e Hin. apply in_app_iff in Hin.
      destruct Hin as [Hin|[<-|[]]]; [now left|now right].
Qed.

(** ** Settings *)

Lemma first_save_row_is_null (now uuid : string) (s : Settings.State)
    (c : Category) :
  Settings.field (Settings.activeColumn c) (Settings.newConfigRow now uuid s)
  = Some VNull.
Proof. destruct c; reflexivity. Qed.

Lemma first_save_object_is_empty (now uuid : string) (s : Settings.State)
    (c : Category) :
  activeOf c (Settings.newConfig now uuid s) = Some ""%string.
Proof. destruct c; reflexivity. Qed.

(** C9: a settings save with a name, when no configuration exists, inserts a
    row whose six selection columns are null; and once the gateway accepts
    it, the configuration placed in memory has the empty string in the same
    six fields, which is not the value that was persisted. *)
Theorem first_save_null_row_empty_memory (now uuid : string) (d : unit)
    (s : Settings.State) :
  Settings.config s = None ->
  isBlank (Settings.name s) = false ->
  let s' := Settings.handleSaveSettings now uuid (Resolved d) s in
  exists row cfg,
    In (Settings.Sent (Insert configTable (FieldsRow row)))
       (Settings.events s') /\
    (forall r, In (Settings.Sent r) (Settings.events s') ->
               ~ In (Settings.Sent r) (Settings.events s) ->
               r = Insert configTable (FieldsRow row)) /\
    (forall c, Settings.field (Settings.activeColumn c) row = Some VNull) /\
    Settings.config s' = Some cfg /\
    (forall c, activeOf c cfg = Some ""%string) /\
    (forall c, Settings.field (Settings.activeColumn c) row
               <> option_map VString (activeOf c cfg)).
Proof.
  intros Hcfg Hname. unfold Settings.handleSaveSettings.
  rewrite Hname, Hcfg. unfold Settings.await, awaiting. cbn.
  exists (Settings.newConfigRow now uuid s), (Settings.newConfig now uuid s).
  repeat split.
  - rewrite <- !app_assoc, !in_app_iff. cbn. tauto.
  - intros r Hin Hold. rewrite <- !app_assoc, !in_app_iff in Hin. cbn in Hin.
    destruct Hin as [Hin|[[Hin|[]]|[[Hin|[]]|[[Hin|[]]|[Hin|[]]]]]];
      try discriminate; try (now elim Hold).
    now injection Hin as <-.
  - intros c. apply first_save_row_is_null.
  - intros c. apply first_save_object_is_empty.
  - intros c. rewrite first_save_row_is_null, first_save_object_is_empty.
    discriminate.
Qed.

Lemma first_save_null_row_empty_memory_witness :
  exists cfg,
    Settings.config
      (Settings.handleSaveSettings "2024-02-01T00:00:00.000Z" "cfg-9"
         (Resolved tt) emptySettings) = Some cfg /\
    activeOf Spacing cfg = Some ""%string.
Proof.
  destruct (first_save_null_row_empty_memory "2024-02-01T00:00:00.000Z"
              "cfg-9" tt emptySettings)
    as (row & cfg & _ & _ & _ & Hc & He & _); try reflexivity.
  exists cfg. split; [exact Hc|apply He].
Defined.

(** *** Version strings *)

Lemma split_segment (seg rest : string) :
  noDot seg = true ->
  split "." (seg ++ String "." rest) = seg :: split "." rest.
Proof.
  induction seg as [|ch seg IH]; cbn; [reflexivity|].
  intros H. apply andb_prop in H. destruct H as [Hch Hseg].
  destruct (Ascii.eqb ch ".") eqn:E; [discriminate|cbn].
  now rewrite (IH Hseg).
Qed.

Lemma split_last (seg : string) :
  noDot seg = true -> split "." seg = [seg].
Proof.
  induction seg as [|ch seg IH]; cbn; [reflexivity|].
  intros H. apply andb_prop in H. destruct H as [Hch Hseg].
  destruct (Ascii.eqb ch ".") eqn:E; [discriminate|cbn].
  now rewrite (IH Hseg).
Qed.

Lemma digits_noDot (d : uint) : noDot (NilEmpty.string_of_uint d) = true.
Proof. induction d; cbn; auto. Qed.

Lemma render_noDot (n : N) : noDot (render n) = true.
Proof.
  unfold render, NilZero.string_of_uint.
  destruct (N.to_uint n); try reflexivity; apply digits_noDot.
Qed.

Lemma to_uint_nonnil (n : N) : N.to_uint n <> Nil.
Proof.
  destruct n as [|p]; cbn; [discriminate|].
  apply DecimalPos.Unsigned.to_uint_nonnil.
Qed.

Lemma Number_render (n : N) :
  (n <= MAX_SAFE_INTEGER)%N -> Number (render n) = Some n.
Proof.
  intros Hn. unfold Number, render.
  rewrite NilZero.usu by apply to_uint_nonnil.
  rewrite DecimalN.Unsigned.of_to.
  apply N.leb_le in Hn. now rewrite Hn.
Qed.

Lemma bumpPatch_semver (major minor patch : N) :
  (major <= MAX_SAFE_INTEGER)%N -> (minor <= MAX_SAFE_INTEGER)%N ->
  (patch <= MAX_SAFE_INTEGER)%N ->
  bumpPatch (semver major minor patch) = Some (semver major minor (patch + 1)).
Proof.
  intros Ha Hb Hp. unfold bumpPatch, semver.
  change (render major ++ "." ++ render minor ++ "." ++ render patch)%string
    with (render major ++ String "." (render minor ++ String "." (render patch)))%string.
  rewrite split_segment by apply render_noDot.
  rewrite split_segment by apply render_noDot.
  rewrite split_last by apply render_noDot.
  cbn [map allSome]. rewrite !Number_render by assumption.
  reflexivity.
Qed.

(** C7 (as the code has it): with a configuration whose version is
    MAJOR.MINOR.PATCH (three decimal numbers up to the largest safe
    integer), a change text that is not blank, and both gateway writes
    accepted, [handleCreateNewVersion] inserts a history record whose
    version is MAJOR.MINOR.(PATCH + 1) and whose snapshot is the current
    configuration, then updates the configuration row, and sets the
    configuration's version in memory, to that same version.  The handler
    runs after the effect that copies the configuration into the form. *)
Theorem createVersion_bumps_patch (now uuid : string) (d1 d2 : unit)
    (s : Settings.State) (cfg : Config.t) (major minor patch : N) :
  Settings.config s = Some cfg ->
  isBlank (Settings.newVersionChanges s) = false ->
  Config.version cfg = semver major minor patch ->
  (major <= MAX_SAFE_INTEGER)%N -> (minor <= MAX_SAFE_INTEGER)%N ->
  (patch <= MAX_SAFE_INTEGER)%N ->
  let v' := semver major minor (patch + 1) in
  let h :=
    VersionHistory.mk uuid (Config.id cfg) v' (Settings.newVersionChanges s)
      cfg now (Settings.userId s) in
  exists s',
    Settings.handleCreateNewVersion now uuid (Resolved d1) (Resolved d2)
      (Settings.syncForm s) = Some s' /\
    Settings.versionHistory s' = h :: Settings.versionHistory s /\
    Settings.config s' = Some (Settings.withVersion v' now cfg) /\
    option_map Config.version (Settings.config s') = Some v' /\
    Settings.version s' = v' /\
    Settings.error s' = None /\
    Settings.events s' = Settings.events s ++
      [Settings.SetError None;
       Settings.Sent
         (Insert "version_histories"
            (FieldsRow (Settings.historyRow h now (Settings.userId s))));
       Settings.Sent
         (Update configTable
            (FieldsRow [("version", VString v'); ("updated_at", VString now)]%string)
            (Config.id cfg));
       Settings.SetConfig (Some (Settings.withVersion v' now cfg));
       Settings.SetVersion v';
       Settings.SetVersionHistory (h :: Settings.versionHistory s);
       Settings.SetSuccessMessage (Some "New version created successfully!"%string)].
Proof.
  intros Hcfg Hchanges Hver Ha Hb Hp. cbn zeta.
  unfold Settings.handleCreateNewVersion, Settings.syncForm.
  rewrite Hcfg. cbn -[bumpPatch semver isBlank]. rewrite Hchanges, Hver.
  rewrite bumpPatch_semver by assumption.
  unfold Settings.await, awaiting. cbn -[semver].
  eexists. split; [reflexivity|]. cbn -[semver].
  rewrite <- !app_assoc. repeat split.
Qed.

Lemma createVersion_bumps_patch_witness :
  exists s',
    Settings.handleCreateNewVersion "2024-02-01T00:00:00.000Z" "ver-9"
      (Resolved tt) (Resolved tt) (Settings.syncForm (sampleSettings "fix typo"))
    = Some s' /\
    option_map Config.version (Settings.config s') = Some "1.0.1"%string.
Proof.
  destruct (createVersion_bumps_patch "2024-02-01T00:00:00.000Z" "ver-9" tt tt
              (sampleSettings "fix typo") sampleConfig 1 0 0)
    as (s' & Hrun & _ & _ & Hv & _); try reflexivity; try (cbv; discriminate).
  exists s'. split; [exact Hrun|exact Hv].
Defined.

(** C7 (as stated) fails: a change text of one space is not empty, yet the
    handler rejects it before any request, and neither a history record nor
    a new version results. *)
Lemma createVersion_rejects_blank_changes :
  let s := Settings.syncForm (sampleSettings " ") in
  Settings.newVersionChanges s <> ""%string /\
  option_map Config.version (Settings.config s) = Some "1.0.0"%string /\
  exists s',
    Settings.handleCreateNewVersion "2024-02-01T00:00:00.000Z" "ver-9"
      (Resolved tt) (Resolved tt) s = Some s' /\
    Settings.versionHistory s' = [] /\
    option_map Config.version (Settings.config s') = Some "1.0.0"%string /\
    Settings.events s' =
      [Settings.SetError (Some "Please enter changes for the new version."%string)].
Proof.
  cbn zeta. split; [discriminate|]. split; [reflexivity|].
  eexists. split; [reflexivity|]. repeat split.
Qed.

(** ** Further properties of the token pages *)

Ltac notifier s :=
  try unfold emitUpdate; cbn;
  destruct (isConnected s), (isRealTimeEnabled s); cbn.

(** X1: a confirmed delete that the gateway does not accept (an error in the
    reply, or an exception) changes neither the collection, nor the marker,
    nor the configuration; its only request is the delete, and the page's
    error is the delete message. *)
Theorem delete_failure_keeps_state (c : Category)
    (deleted cleared : Reply unit) (id : string) (s : Page) :
  succeeded deleted = false ->
  let s' := handleDelete c true deleted cleared id s in
  items s' = items s /\ activeItem s' = activeItem s /\
  config s' = config s /\
  error s' = Some ("Failed to delete " ++ noun c ++ ". Please try again.")%string /\
  requests (events s') = requests (events s) ++ [Delete (tableName c) id].
Proof.
  intros Hd. unfold handleDelete, await, awaiting, requests.
  destruct deleted as [d|msg|]; try discriminate; cbn;
    repeat split; rewrite !flat_map_app; cbn; now rewrite !app_nil_r.
Qed.

Lemma delete_failure_keeps_state_witness :
  items (handleDelete Spacing true (Failed "permission denied") (Resolved tt)
           "tok-1" samplePage) = items samplePage.
Proof.
  apply (delete_failure_keeps_state Spacing (Failed "permission denied")
           (Resolved tt) "tok-1" samplePage).
  reflexivity.
Defined.

(** The collection after a confirmed delete that the gateway accepted,
    whatever the marker, the configuration and the reply to the update of
    the configuration row. *)
Lemma delete_accepted_items (c : Category) (cleared : Reply unit) (d : unit)
    (id : string) (s : Page) :
  items (handleDelete c true (Resolved d) cleared id s)
  = filter (fun t => negb (String.eqb (Token.id t) id)) (items s).
Proof.
  unfold handleDelete, await, awaiting. cbn.
  destruct (activeIs id (activeItem s)); cbn.
  - destruct (config s) as [cfg|]; [destruct (refersTo c id cfg)|]; cbn.
    + destruct cleared; cbn; try reflexivity; notifier s; reflexivity.
    + notifier s; reflexivity.
    + notifier s; reflexivity.
  - notifier s; reflexivity.
Qed.

Lemma delete_removes_every_match_aux (c : Category) (cleared : Reply unit)
    (d : unit) (id : string) (s : Page) (t : Token.t) :
  In t (items (handleDelete c true (Resolved d) cleared id s))
  <-> In t (items s) /\ Token.id t <> id.
Proof.
  rewrite delete_accepted_items, filter_In, negb_true_iff.
  split; intros [Hin Hne]; split; auto.
  - intros Heq. apply String.eqb_eq in Heq. congruence.
  - destruct (String.eqb (Token.id t) id) eqn:E; [|reflexivity].
    apply String.eqb_eq in E. now elim Hne.
Qed.

(** X2: after a confirmed delete that the gateway accepted, the collection
    holds exactly the records it held whose id is not the deleted one, so
    every record with that id is gone; deleting an id no record has leaves
    the collection as it was. *)
Theorem delete_removes_every_match (c : Category) (cleared : Reply unit)
    (d : unit) (id : string) (s : Page) :
  let s' := handleDelete c true (Resolved d) cleared id s in
  (forall t, In t (items s') <-> In t (items s) /\ Token.id t <> id) /\
  ((forall t, In t (items s) -> Token.id t <> id) -> items s' = items s).
Proof.
  cbn zeta. split.
  - intros t. apply delete_removes_every_match_aux.
  - rewrite delete_accepted_items. intros Hnone. induction (items s) as [|x l IH]; cbn; [reflexivity|].
    destruct (String.eqb (Token.id x) id) eqn:E; cbn.
    + apply String.eqb_eq in E. elim (Hnone x); [now left|exact E].
    + f_equal. apply IH. intros t Ht. apply Hnone. now right.
Qed.

(** X3: when the delete is accepted for the record that the marker and the
    Register refer to, and the update of the configuration row then throws,
    the record is gone from the collection, the marker is none and the
    Register's field is null in memory, and the page reports that the delete
    failed. *)
Theorem delete_reports_failure_after_removal (c : Category) (d : unit)
    (id : string) (s : Page) (cfg : Config.t) :
  activeIs id (activeItem s) = true ->
  config s = Some cfg ->
  activeOf c cfg = Some id ->
  let s' := handleDelete c true (Resolved d) Thrown id s in
  items s' = filter (fun t => negb (String.eqb (Token.id t) id)) (items s) /\
  activeItem s' = None /\
  option_map (activeOf c) (config s') = Some None /\
  error s' = Some ("Failed to delete " ++ noun c ++ ". Please try again.")%string.
Proof.
  intros Hact Hcfg Href. unfold handleDelete, await, awaiting. cbn.
  rewrite Hact, Hcfg. unfold refersTo. rewrite Href, String.eqb_refl. cbn.
  rewrite activeOf_withActive. repeat split.
Qed.

Lemma delete_reports_failure_after_removal_witness :
  let s' := handleDelete Spacing true (Resolved tt) Thrown "tok-1" samplePage in
  items s' = [wideScale] /\
  error s' = Some "Failed to delete spacing. Please try again."%string.
Proof.
  destruct (delete_reports_failure_after_removal Spacing tt "tok-1" samplePage
              sampleConfig) as (Hi & _ & _ & He); try reflexivity.
  split; [exact Hi|exact He].
Defined.

(** X4: a load that the gateway does not answer with data keeps the
    collection, the marker and the configuration, sets the page's error to
    the load message and ends with the loading flag down. *)
Theorem load_failure_keeps_state (c : Category) (listed : Reply (list Token.t))
    (s : Page) :
  succeeded listed = false ->
  let s' := fetchTokens c listed s in
  items s' = items s /\ activeItem s' = activeItem s /\
  config s' = config s /\ isLoading s' = false /\
  error s' = Some ("Failed to load " ++ loadNoun c ++ ". Please try again.")%string.
Proof.
  intros Hl. unfold fetchTokens, await, awaiting.
  destruct listed as [data|msg|]; try discriminate; cbn; repeat split.
Qed.

Lemma load_failure_keeps_state_witness :
  items (fetchTokens Spacing Thrown samplePage) = items samplePage.
Proof.
  apply (load_failure_keeps_state Spacing Thrown samplePage). reflexivity.
Defined.

(** What an answered load leaves, by the record [find] returns. *)
Lemma load_resolved (c : Category) (data : list Token.t) (s : Page) :
  let s' := fetchTokens c (Resolved data) s in
  items s' = data /\ config s' = config s /\ error s' = error s /\
  isLoading s' = false /\
  activeItem s' =
    match config s with
    | Some cfg =>
        match activeOf c cfg with
        | Some a =>
            if String.eqb a "" then activeItem s
            else
              match find (fun t => String.eqb (Token.id t) a) data with
              | Some active => Some active
              | None => activeItem s
              end
        | None => activeItem s
        end
    | None => activeItem s
    end.
Proof.
  unfold fetchTokens, await, awaiting. cbn.
  destruct (config s) as [cfg|] eqn:Hcfg; cbn; [|now rewrite ?Hcfg].
  destruct (activeOf c cfg) as [a|]; cbn; [|now rewrite ?Hcfg].
  destruct (String.eqb a ""); cbn; [now rewrite ?Hcfg|].
  destruct (find _ data); cbn; now rewrite ?Hcfg.
Qed.



(** X6: the configuration object that the settings page places in memory on
    its first save selects nothing: a load under it never moves the marker,
    whatever records arrive, even one whose id is the empty string. *)
Theorem load_after_first_save_marks_nothing (c : Category)
    (data : list Token.t) (s : Page) (now uuid : string)
    (st : Settings.State) :
  config s = Some (Settings.newConfig now uuid st) ->
  let s' := fetchTokens c (Resolved data) s in
  activeItem s' = activeItem s /\ items s' = data.
Proof.
  intros Hcfg. destruct (load_resolved c data s) as (Hi & _ & _ & _ & Hact).
  cbn zeta. rewrite Hact, Hi, Hcfg, first_save_object_is_empty. now split.
Qed.

Lemma load_after_first_save_marks_nothing_witness :
  activeItem
    (fetchTokens Spacing (Resolved [defaultScale; wideScale]) pageAfterFirstSave)
  = Some wideScale.
Proof.
  apply (load_after_first_save_marks_nothing Spacing [defaultScale; wideScale]
           pageAfterFirstSave "2024-02-01T00:00:00.000Z" "cfg-9" emptySettings).
  reflexivity.
Defined.

(** X7: [handleSetActive] changes the configuration, so the page's load
    effect runs again.  If no loaded record has the chosen id, the marker
    stays on the chosen record; if the id is not empty and a loaded record
    has it, the marker moves to a loaded record with that id. *)
Theorem setActive_then_reload (c : Category) (persisted : Reply unit)
    (t : Token.t) (s : Page) (cfg : Config.t) (data : list Token.t) :
  config s = Some cfg ->
  let s1 := handleSetActive c persisted t s in
  let s2 := fetchTokens c (Resolved data) s1 in
  ((forall x, In x data -> Token.id x <> Token.id t) ->
   activeItem s2 = Some t) /\
  (Token.id t <> ""%string ->
   (exists x, In x data /\ Token.id x = Token.id t) ->
   exists fresh,
     activeItem s2 = Some fresh /\ In fresh data /\
     Token.id fresh = Token.id t).
Proof.
  intros Hcfg. cbn zeta.
  destruct (setActive_memory_first c persisted t s cfg Hcfg) as (Ha & Hc & _).
  destruct (load_resolved c data (handleSetActive c persisted t s))
    as (_ & _ & _ & _ & Hact).
  rewrite Hact, Hc, Ha, activeOf_withActive. split.
  - intros Hnone. destruct (String.eqb (Token.id t) ""); [reflexivity|].
    destruct (find _ data) as [x|] eqn:Hf; [|reflexivity].
    apply find_some in Hf. destruct Hf as [Hin Heq].
    apply String.eqb_eq in Heq. now elim (Hnone x).
  - intros Hne (x & Hin & Hid).
    destruct (String.eqb (Token.id t) "") eqn:E;
      [apply String.eqb_eq in E; now elim Hne|].
    destruct (find (fun y => String.eqb (Token.id y) (Token.id t)) data)
      as [fresh|] eqn:Hf.
    + apply find_some in Hf. destruct Hf as [Hin' Heq].
      apply String.eqb_eq in Heq. now exists fresh.
    + exfalso. apply (find_none _ _ Hf) in Hin.
      rewrite Hid, String.eqb_refl in Hin. discriminate.
Qed.

Lemma setActive_then_reload_witness :
  activeItem
    (fetchTokens Spacing (Resolved [defaultScale])
       (handleSetActive Spacing (Resolved tt) wideScale samplePage))
  = Some wideScale.
Proof.
  apply (proj1 (setActive_then_reload Spacing (Resolved tt) wideScale
                  samplePage sampleConfig [defaultScale] eq_refl)).
  intros x [<-|[]]. discriminate.
Defined.

(** The configuration after [handleSetActive], with or without one before. *)
Lemma setActive_config (c : Category) (persisted : Reply unit) (t : Token.t)
    (s : Page) :
  config (handleSetActive c persisted t s)
  = option_map (withActive c (Some (Token.id t))) (config s).
Proof.
  unfold handleSetActive, await, awaiting.
  destruct (config s) as [cfg|] eqn:Hcfg; cbn.
  - destruct persisted; cbn; try reflexivity; notifier s; reflexivity.
  - notifier s; now rewrite Hcfg.
Qed.

(** The configuration after [handleDelete]: cleared for the category, or as
    before. *)
Lemma delete_config (c : Category) (confirmed : bool)
    (deleted cleared : Reply unit) (id : string) (s : Page) :
  let s' := handleDelete c confirmed deleted cleared id s in
  config s' = config s \/
  config s' = option_map (withActive c None) (config s).
Proof.
  cbn zeta.
  destruct (confirmed && succeeded deleted && activeIs id (activeItem s)
            && match config s with
               | Some cfg => refersTo c id cfg
               | None => false
               end) eqn:Hcase.
  - right.
    apply andb_prop in Hcase. destruct Hcase as [Hcase Href].
    apply andb_prop in Hcase. destruct Hcase as [Hcase Hact].
    apply andb_prop in Hcase. destruct Hcase as [-> Hdel].
    destruct deleted as [d|msg|]; try discriminate.
    destruct (config s) as [cfg|] eqn:Hcfg; try discriminate.
    unfold handleDelete, await, awaiting. cbn.
    rewrite Hact, Hcfg, Href.
    destruct cleared; cbn; try reflexivity; notifier s; reflexivity.
  - left. apply (delete_frame c confirmed deleted cleared id s Hcase).
Qed.

(** X8: neither [handleSetActive] nor [handleDelete] of one category's page
    changes what the Register holds for another category. *)
Theorem other_categories_untouched (c c' : Category) (confirmed : bool)
    (persisted deleted cleared : Reply unit) (t : Token.t) (id : string)
    (s : Page) :
  c <> c' ->
  option_map (activeOf c') (config (handleSetActive c persisted t s))
  = option_map (activeOf c') (config s) /\
  option_map (activeOf c')
    (config (handleDelete c confirmed deleted cleared id s))
  = option_map (activeOf c') (config s).
Proof.
  intros Hne. split.
  - rewrite setActive_config. destruct (config s) as [cfg|]; cbn; [|reflexivity].
    now rewrite activeOf_withActive_other.
  - destruct (delete_config c confirmed deleted cleared id s) as [H|H];
      rewrite H; [reflexivity|].
    destruct (config s) as [cfg|]; cbn; [|reflexivity].
    now rewrite activeOf_withActive_other.
Qed.

Lemma other_categories_untouched_witness :
  option_map (activeOf Spacing)
    (config (handleSetActive Shadow (Resolved tt) wideScale samplePage))
  = Some (Some "tok-1"%string).
Proof.
  apply (proj1 (other_categories_untouched Shadow Spacing true (Resolved tt)
                  (Resolved tt) (Resolved tt) wideScale "tok-2" samplePage
                  ltac:(discriminate))).
Defined.

(** X9: after [handleSetActive] on a record, with a configuration present, a
    confirmed and accepted delete of that record leaves no record with its
    id, no marker and a null Register field, whatever the gateway replied to
    either update of the configuration row. *)
Theorem setActive_then_delete_clears (c : Category)
    (persisted cleared : Reply unit) (d : unit) (t : Token.t) (s : Page)
    (cfg : Config.t) :
  config s = Some cfg ->
  let s1 := handleSetActive c persisted t s in
  let s2 := handleDelete c true (Resolved d) cleared (Token.id t) s1 in
  activeItem s2 = None /\
  option_map (activeOf c) (config s2) = Some None /\
  (forall x, In x (items s2) -> Token.id x <> Token.id t).
Proof.
  intros Hcfg. cbn zeta.
  destruct (setActive_memory_first c persisted t s cfg Hcfg) as (Ha & Hc & _).
  set (s1 := handleSetActive c persisted t s) in *.
  assert (Hstate :
    activeItem (handleDelete c true (Resolved d) cleared (Token.id t) s1) = None /\
    config (handleDelete c true (Resolved d) cleared (Token.id t) s1)
    = Some (withActive c None (withActive c (Some (Token.id t)) cfg))).
  { unfold handleDelete, await, awaiting. cbn. rewrite Ha, Hc. cbn.
    rewrite String.eqb_refl. unfold refersTo.
    rewrite activeOf_withActive, String.eqb_refl.
    destruct cleared; cbn; try (split; reflexivity); notifier s1;
      split; reflexivity. }
  destruct Hstate as [Hm Hcf]. rewrite Hm, Hcf. cbn.
  rewrite activeOf_withActive. repeat split.
  intros x Hin.
  apply (proj1 (delete_removes_every_match_aux c cleared d (Token.id t) s1 x)) in Hin.
  tauto.
Qed.

Lemma setActive_then_delete_clears_witness :
  activeItem
    (handleDelete Spacing true (Resolved tt) (Failed "permission denied") "tok-2"
       (handleSetActive Spacing (Failed "permission denied") wideScale
          samplePage))
  = None.
Proof.
  apply (setActive_then_delete_clears Spacing (Failed "permission denied")
           (Failed "permission denied") tt wideScale samplePage sampleConfig).
  reflexivity.
Defined.

Lemma replace_absent (t : Token.t) (l : list Token.t) :
  (forall x, In x l -> Token.id x <> Token.id t) ->
  map (fun x => if String.eqb (Token.id x) (Token.id t) then t else x) l = l.
Proof.
  induction l as [|x l IH]; cbn; [reflexivity|]. intros Hnone.
  destruct (String.eqb (Token.id x) (Token.id t)) eqn:E.
  - apply String.eqb_eq in E. elim (Hnone x); [now left|exact E].
  - f_equal. apply IH. intros y Hy. apply Hnone. now right.
Qed.

(** X10: [handleSave] in edit mode keeps the size of the collection and
    every record whose id is not the saved one, replaces every record that
    has the saved id, and, when no record has it, leaves the collection as
    it was: the saved record is then not in memory at all. *)
Theorem save_update_touches_only_matching (c : Category) (t : Token.t)
    (s : Page) (r : Token.t) :
  editing s = Some r ->
  let s' := handleSave c t s in
  length (items s') = length (items s) /\
  (forall x, In x (items s) -> Token.id x <> Token.id t -> In x (items s')) /\
  (forall x, In x (items s') ->
             x = t \/ In x (items s) /\ Token.id x <> Token.id t) /\
  ((forall x, In x (items s) -> Token.id x <> Token.id t) ->
   items s' = items s) /\
  isEditorOpen s' = false.
Proof.
  intros He. cbn zeta.
  assert (Hitems : items (handleSave c t s)
                   = map (fun x => if String.eqb (Token.id x) (Token.id t)
                                   then t else x) (items s)).
  { unfold handleSave. rewrite He. notifier s; reflexivity. }
  assert (Hopen : isEditorOpen (handleSave c t s) = false).
  { unfold handleSave. rewrite He. notifier s; reflexivity. }
  rewrite Hitems. repeat split.
  - apply length_map.
  - intros x Hin Hne. apply in_map_iff. exists x. split; [|exact Hin].
    destruct (String.eqb (Token.id x) (Token.id t)) eqn:E; [|reflexivity].
    apply String.eqb_eq in E. now elim Hne.
  - intros x Hin. apply in_map_iff in Hin. destruct Hin as (y & Hy & Hin).
    destruct (String.eqb (Token.id y) (Token.id t)) eqn:E.
    + left. now symmetry.
    + right. subst y. split; [exact Hin|].
      intros Heq. rewrite Heq, String.eqb_refl in E. discriminate.
  - apply replace_absent.
  - exact Hopen.
Qed.

Lemma save_update_touches_only_matching_witness :
  items (handleSave Spacing anonymousScale pageEditingDefault)
  = items pageEditingDefault.
Proof.
  destruct (save_update_touches_only_matching Spacing anonymousScale
              pageEditingDefault defaultScale eq_refl) as (_ & _ & _ & H & _).
  apply H. intros x [<-|[<-|[]]]; discriminate.
Defined.

(** A submit in create mode that the gateway accepted, from any state. *)
Lemma submit_create_resolved (c : Category) (now uuid formName : string)
    (formPayload : Payload) (d : unit) (s : Page) :
  editing s = None ->
  let u := Token.mk uuid formName 1 formPayload now now (userId s) in
  let s' := handleSubmit c now uuid formName formPayload (Resolved d) s in
  items s' = items s ++ [u] /\
  isEditorOpen s' = false /\
  errorMessage s' = None /\
  requests (events s') = requests (events s) ++ [Insert (tableName c) (TokenRow u)].
Proof.
  intros He. cbn zeta.
  unfold handleSubmit, handleSave, await, awaiting, requests.
  rewrite He. cbn. rewrite He. notifier s; repeat split;
    rewrite ?flat_map_app; cbn; now rewrite ?app_nil_r.
Qed.

(** X11: opening the editor with [handleCreateNew] and submitting it (the
    ColorScheme, Spacing, BorderRadius and Shadow editors), when the gateway
    accepts the insert, appends to the end of the collection a record with
    the fresh id, version 1, createdAt and updatedAt equal to the time of the
    write and createdBy the page's user; the insert carries that record, the
    editor's message is cleared and the dialog is closed. *)
Theorem create_appends_version_one (c : Category) (now uuid formName : string)
    (formPayload : Payload) (d : unit) (s : Page) :
  c = ColorScheme \/ c = Spacing \/ c = BorderRadius \/ c = Shadow ->
  let u := Token.mk uuid formName 1 formPayload now now (userId s) in
  let s' :=
    handleSubmit c now uuid formName formPayload (Resolved d)
      (handleCreateNew s) in
  items s' = items s ++ [u] /\
  isEditorOpen s' = false /\
  errorMessage s' = None /\
  requests (events s') = requests (events s) ++ [Insert (tableName c) (TokenRow u)].
Proof.
  intros _.
  exact (submit_create_resolved c now uuid formName formPayload d
           (handleCreateNew s) eq_refl).
Qed.

Lemma create_appends_version_one_witness :
  items (handleSubmit Spacing "2024-02-01T00:00:00.000Z" "tok-9" "Tight Scale"
           [("4", "0.5rem")] (Resolved tt) (handleCreateNew samplePage))
  = [defaultScale; wideScale;
     Token.mk "tok-9" "Tight Scale" 1 [("4", "0.5rem")]
       "2024-02-01T00:00:00.000Z" "2024-02-01T00:00:00.000Z" "user-1"].
Proof.
  apply (create_appends_version_one Spacing "2024-02-01T00:00:00.000Z" "tok-9"
           "Tight Scale" [("4", "0.5rem")] tt samplePage).
  now right; left.
Defined.

(** ** The form of a scale editor *)

Lemma lookup_setKey (key value : string) (o : Payload) :
  lookup key (setKey key value o) = Some value.
Proof.
  induction o as [|[k v] o IH]; cbn.
  - now rewrite String.eqb_refl.
  - destruct (String.eqb k key) eqn:E; cbn.
    + now rewrite String.eqb_refl.
    + now rewrite E.
Qed.

Lemma lookup_setKey_other (key other value : string) (o : Payload) :
  other <> key -> lookup other (setKey key value o) = lookup other o.
Proof.
  intros Hne. induction o as [|[k v] o IH]; cbn.
  - destruct (String.eqb key other) eqn:E; [|reflexivity].
    apply String.eqb_eq in E. now elim Hne.
  - destruct (String.eqb k key) eqn:E; cbn.
    + apply String.eqb_eq in E. subst k.
      destruct (String.eqb key other) eqn:E'; [|reflexivity].
      apply String.eqb_eq in E'. now elim Hne.
    + now rewrite IH.
Qed.



(** X12: typing a key that is not blank and a value, then [handleAddScale]:
    the scale reads the value under the key exactly as typed (it is not
    trimmed), an earlier value under that key is overwritten, every other
    key reads as before, and both inputs are emptied. *)
Theorem addScale_then_lookup (key value : string) (f : EditorForm) :
  isBlank key = false ->
  let f' := handleAddScale (typeScaleValue value (typeScaleKey key f)) in
  lookup key (scale f') = Some value /\
  (forall other, other <> key ->
                 lookup other (scale f') = lookup other (scale f)) /\
  newScaleKey f' = ""%string /\ newScaleValue f' = ""%string /\
  formName f' = formName f.
Proof.
  intros Hkey. unfold handleAddScale, typeScaleValue, typeScaleKey.
  cbn -[isBlank]. rewrite Hkey. cbn. repeat split.
  - apply lookup_setKey.
  - intros other Hne. now apply lookup_setKey_other.
Qed.

Lemma addScale_then_lookup_witness :
  lookup " 4" (scale (handleAddScale
                        (typeScaleValue "1.5rem" (typeScaleKey " 4" sampleForm))))
  = Some "1.5rem"%string.
Proof.
  apply (addScale_then_lookup " 4" "1.5rem" sampleForm). reflexivity.
Defined.


(** A submit in edit mode that the gateway accepted, from any state. *)
Lemma submit_update_resolved (c : Category) (now uuid formName : string)
    (formPayload : Payload) (d : unit) (s : Page) (r : Token.t) :
  editing s = Some r ->
  let u := prepare (Some r) now uuid (userId s) formName formPayload in
  let s' := handleSubmit c now uuid formName formPayload (Resolved d) s in
  items s' =
    map (fun x => if String.eqb (Token.id x) (Token.id u) then u else x)
      (items s) /\
  isEditorOpen s' = false /\
  requests (events s')
  = requests (events s) ++ [Update (tableName c) (TokenRow u) (Token.id r)].
Proof.
  intros He. cbn zeta.
  unfold handleSubmit, handleSave, await, awaiting, requests.
  rewrite He. cbn -[prepare]. rewrite He. notifier s; repeat split;
    rewrite ?flat_map_app; cbn -[prepare]; now rewrite ?app_nil_r.
Qed.

(** X14: editing a record of a scale editor whose version is a safe
    integer: the form opens on the record's name and scale; after
    [handleScaleValueChange] on a key and a submit that the gateway accepts,
    the record stored in its place has that value under the key, every
    other key as before, the old name, and the version plus one. *)
Theorem edit_value_then_submit (c : Category) (now uuid key value : string)
    (d : unit) (defaults : Payload) (s : Page) (r : Token.t) :
  c = Spacing \/ c = BorderRadius \/ c = Shadow ->
  In r (items s) ->
  Token.id r <> ""%string ->
  isSafeInteger (Token.version r) ->
  let s1 := handleEdit r s in
  let f := handleScaleValueChange key value (openForm (editing s1) defaults) in
  let s' := submitForm c now uuid f (Resolved d) s1 in
  exists u,
    In u (items s') /\
    Token.id u = Token.id r /\
    Token.name u = Token.name r /\
    Token.version u = (Token.version r + 1)%Z /\
    lookup key (Token.payload u) = Some value /\
    (forall other, other <> key ->
       lookup other (Token.payload u) = lookup other (Token.payload r)) /\
    length (items s') = length (items s).
Proof.
  intros _ Hin Hid Hsafe. cbn zeta.
  change (submitForm c now uuid
            (handleScaleValueChange key value
               (openForm (editing (handleEdit r s)) defaults))
            (Resolved d) (handleEdit r s))
    with (handleSubmit c now uuid (Token.name r)
            (setKey key value (Token.payload r)) (Resolved d) (handleEdit r s)).
  destruct (submit_update_resolved c now uuid (Token.name r)
              (setKey key value (Token.payload r)) d (handleEdit r s) r eq_refl)
    as (Hitems & _ & _).
  change (items (handleEdit r s)) with (items s) in Hitems.
  change (userId (handleEdit r s)) with (userId s) in Hitems.
  set (u := prepare (Some r) now uuid (userId s) (Token.name r)
              (setKey key value (Token.payload r))) in *.
  assert (Hu : Token.id u = Token.id r).
  { subst u. cbn. now apply orElse_nonempty. }
  exists u. rewrite Hitems. repeat split.
  - apply in_map_iff. exists r. split; [|exact Hin].
    now rewrite Hu, String.eqb_refl.
  - exact Hu.
  - subst u. cbn. now apply plusOne_safe.
  - subst u. cbn. apply lookup_setKey.
  - intros other Hne. subst u. cbn. now apply lookup_setKey_other.
  - apply length_map.
Qed.

Lemma edit_value_then_submit_witness :
  exists u,
    In u (items (submitForm Spacing "2024-02-01T00:00:00.000Z" "tok-9"
                   (handleScaleValueChange "4" "1.5rem"
                      (openForm (editing (handleEdit defaultScale samplePage))
                         []))
                   (Resolved tt) (handleEdit defaultScale samplePage))) /\
    lookup "4" (Token.payload u) = Some "1.5rem"%string /\
    Token.version u = 2%Z.
Proof.
  destruct (edit_value_then_submit Spacing "2024-02-01T00:00:00.000Z" "tok-9"
              "4" "1.5rem" tt [] samplePage defaultScale)
    as (u & Hin & _ & _ & Hv & Hl & _);
    [now left | now left | discriminate | reflexivity |].
  exists u. repeat split; assumption.
Defined.

(** ** Further properties of the settings page *)

(** X15: a settings save over an existing configuration, with a name and
    accepted by the gateway, keeps the configuration's id, its six
    selections, createdAt and createdBy, and takes name, description, version
    and feature flags from the form and updatedAt from the clock; the one
    request it sends is an update of that row whose patch names no selection
    column. *)
Theorem save_settings_keeps_selections (now uuid : string) (d : unit)
    (s : Settings.State) (cfg : Config.t) :
  Settings.config s = Some cfg ->
  isBlank (Settings.name s) = false ->
  let s' := Settings.handleSaveSettings now uuid (Resolved d) s in
  exists cfg' patch,
    Settings.config s' = Some cfg' /\
    (forall c, activeOf c cfg' = activeOf c cfg) /\
    Config.id cfg' = Config.id cfg /\
    Config.createdAt cfg' = Config.createdAt cfg /\
    Config.createdBy cfg' = Config.createdBy cfg /\
    Config.name cfg' = Settings.name s /\
    Config.description cfg' = Settings.description s /\
    Config.version cfg' = Settings.version s /\
    Config.customFeatures cfg' = Settings.customFeatures s /\
    Config.updatedAt cfg' = now /\
    settingsRequests (Settings.events s')
    = settingsRequests (Settings.events s)
      ++ [Update configTable (FieldsRow patch) (Config.id cfg)] /\
    (forall c, Settings.field (Settings.activeColumn c) patch = None /\
               Settings.field (activeFieldName c) patch = None) /\
    Settings.successMessage s' = Some "Settings saved successfully!"%string.
Proof.
  intros Hcfg Hname. unfold Settings.handleSaveSettings.
  rewrite Hname, Hcfg. unfold Settings.await, awaiting, settingsRequests. cbn.
  eexists.
  exists [("name", VString (Settings.name s));
          ("description", VString (Settings.description s));
          ("version", VString (Settings.version s));
          ("custom_features", VFlags (Settings.customFeatures s));
          ("updated_at", VString now)]%string.
  split; [reflexivity|]. cbn.
  repeat split; try (destruct c; reflexivity).
  rewrite !flat_map_app. cbn. now rewrite !app_nil_r.
Qed.

Lemma save_settings_keeps_selections_witness :
  exists cfg',
    Settings.config
      (Settings.handleSaveSettings "2024-02-01T00:00:00.000Z" "cfg-9"
         (Resolved tt) (sampleSettings "")) = Some cfg' /\
    activeOf Spacing cfg' = Some "tok-1"%string.
Proof.
  destruct (save_settings_keeps_selections "2024-02-01T00:00:00.000Z" "cfg-9"
              tt (sampleSettings "") sampleConfig)
    as (cfg' & patch & Hc & Ha & _); try reflexivity.
  exists cfg'. split; [exact Hc|]. now rewrite Ha.
Defined.

(** X16: a settings save whose name is blank, or which the gateway does not
    accept, leaves the configuration and the success message as they were
    and sets the page's error; with a blank name no request is sent at
    all. *)
Theorem save_settings_rejected_or_failed (now uuid : string)
    (written : Reply unit) (s : Settings.State) :
  isBlank (Settings.name s) = true \/ succeeded written = false ->
  let s' := Settings.handleSaveSettings now uuid written s in
  Settings.config s' = Settings.config s /\
  Settings.successMessage s' = Settings.successMessage s /\
  (exists msg, Settings.error s' = Some msg) /\
  (isBlank (Settings.name s) = true ->
   settingsRequests (Settings.events s') = settingsRequests (Settings.events s)).
Proof.
  intros H. unfold Settings.handleSaveSettings, settingsRequests.
  destruct (isBlank (Settings.name s)) eqn:Hname.
  - cbn. repeat split; [eexists; reflexivity|].
    intros _. rewrite flat_map_app. cbn. now rewrite app_nil_r.
  - destruct H as [H|H]; [discriminate|].
    unfold Settings.await, awaiting.
    destruct written as [d|msg|]; try discriminate;
      destruct (Settings.config s) as [cfg|] eqn:Hcfg; cbn; rewrite ?Hcfg;
      repeat split; try (eexists; reflexivity); discriminate.
Qed.

Lemma save_settings_rejected_or_failed_witness :
  Settings.config
    (Settings.handleSaveSettings "2024-02-01T00:00:00.000Z" "cfg-9"
       (Failed "permission denied") emptySettings) = None.
Proof.
  apply (save_settings_rejected_or_failed "2024-02-01T00:00:00.000Z" "cfg-9"
           (Failed "permission denied") emptySettings).
  now right.
Defined.

(** What [handleCreateNewVersion] does once its guards are passed, by the
    two replies. *)
Lemma createVersion_run (now uuid : string) (inserted updated : Reply unit)
    (s : Settings.State) (cfg : Config.t) (v : string) :
  Settings.config s = Some cfg ->
  isBlank (Settings.newVersionChanges s) = false ->
  bumpPatch (Settings.version s) = Some v ->
  let h := Settings.newVersionHistory now uuid v cfg s in
  let insert :=
    Insert "version_histories"
      (FieldsRow (Settings.historyRow h now (Settings.userId s))) in
  let update :=
    Update configTable
      (FieldsRow [("version", VString v); ("updated_at", VString now)]%string)
      (Config.id cfg) in
  exists s',
    Settings.handleCreateNewVersion now uuid inserted updated s = Some s' /\
    Settings.isSaving s' = false /\
    settingsRequests (Settings.events s')
    = settingsRequests (Settings.events s)
      ++ match inserted with
         | Thrown => []
         | Failed _ => [insert]
         | Resolved _ =>
             insert :: match updated with Thrown => [] | _ => [update] end
         end /\
    if succeeded inserted && succeeded updated then
      Settings.config s' = Some (Settings.withVersion v now cfg) /\
      Settings.version s' = v /\
      Settings.versionHistory s' = h :: Settings.versionHistory s /\
      Settings.newVersionChanges s' = ""%string /\
      Settings.isVersionDialogOpen s' = false /\
      Settings.userId s' = Settings.userId s /\
      Settings.error s' = None
    else
      Settings.config s' = Some cfg /\
      Settings.version s' = Settings.version s /\
      Settings.versionHistory s' = Settings.versionHistory s /\
      Settings.newVersionChanges s' = Settings.newVersionChanges s /\
      Settings.error s'
      = Some "Failed to create new version. Please try again."%string.
Proof.
  intros Hcfg Hchanges Hbump. cbn zeta.
  unfold Settings.handleCreateNewVersion.
  rewrite Hchanges, Hcfg, Hbump.
  unfold Settings.await, attempting, settingsRequests.
  eexists. split; [reflexivity|].
  destruct inserted as [d1|m1|], updated as [d2|m2|]; cbn;
    rewrite ?Hcfg; repeat split;
    rewrite ?flat_map_app; cbn; rewrite ?app_nil_r, <- ?app_assoc;
    reflexivity.
Qed.

Lemma join_cons (n m : N) (rest : list N) :
  join (n :: m :: rest) = (render n ++ String "." (join (m :: rest)))%string.
Proof. reflexivity. Qed.

(** Joining, splitting and converting give back the numbers. *)
Lemma segments_round_trip_aux (ns : list N) :
  ns <> [] ->
  Forall (fun n => (n <= MAX_SAFE_INTEGER)%N) ns ->
  allSome (map Number (split "." (join ns))) = Some ns.
Proof.
  induction ns as [|n rest IH]; [now intros H|]. intros _ Hall.
  inversion Hall as [|x l Hn Hrest]; subst.
  destruct rest as [|m rest].
  - cbn [join]. rewrite split_last by apply render_noDot.
    cbn. now rewrite Number_render.
  - rewrite join_cons, split_segment by apply render_noDot.
    cbn [map allSome]. rewrite Number_render by exact Hn.
    rewrite IH; [reflexivity|discriminate|exact Hrest].
Qed.

(** The bump on a version of three or more segments. *)
Lemma bumpPatch_join (major minor patch : N) (rest : list N) :
  Forall (fun n => (n <= MAX_SAFE_INTEGER)%N) (major :: minor :: patch :: rest) ->
  bumpPatch (join (major :: minor :: patch :: rest))
  = Some (join (major :: minor :: (patch + 1)%N :: rest)).
Proof.
  intros Hall. unfold bumpPatch.
  rewrite segments_round_trip_aux by (discriminate || exact Hall).
  reflexivity.
Qed.

(** X17: in [handleCreateNewVersion], with a change text that is not blank
    and a version cell of three or more decimal segments (safe integers),
    when one of the two writes is not accepted nothing changes in memory
    (configuration, version cell, history) and the error is set.  The
    history insert is sent unless the awaited call throws, and the update of
    the configuration row is sent only after an accepted insert, so an
    update that fails leaves a history row at the gateway that memory does
    not show. *)
Theorem createVersion_memory_needs_both_writes (now uuid : string)
    (inserted updated : Reply unit) (s : Settings.State) (cfg : Config.t)
    (major minor patch : N) (rest : list N) :
  Settings.config s = Some cfg ->
  isBlank (Settings.newVersionChanges s) = false ->
  Settings.version s = join (major :: minor :: patch :: rest) ->
  Forall (fun n => (n <= MAX_SAFE_INTEGER)%N) (major :: minor :: patch :: rest) ->
  succeeded inserted && succeeded updated = false ->
  let v := join (major :: minor :: (patch + 1)%N :: rest) in
  let h := Settings.newVersionHistory now uuid v cfg s in
  let insert :=
    Insert "version_histories"
      (FieldsRow (Settings.historyRow h now (Settings.userId s))) in
  let update :=
    Update configTable
      (FieldsRow [("version", VString v); ("updated_at", VString now)]%string)
      (Config.id cfg) in
  exists s',
    Settings.handleCreateNewVersion now uuid inserted updated s = Some s' /\
    Settings.config s' = Settings.config s /\
    Settings.version s' = Settings.version s /\
    Settings.versionHistory s' = Settings.versionHistory s /\
    Settings.error s'
    = Some "Failed to create new version. Please try again."%string /\
    settingsRequests (Settings.events s')
    = settingsRequests (Settings.events s)
      ++ match inserted with
         | Thrown => []
         | Failed _ => [insert]
         | Resolved _ =>
             insert :: match updated with Thrown => [] | _ => [update] end
         end.
Proof.
  intros Hcfg Hchanges Hver Hall Hfail. cbn zeta.
  assert (Hbump : bumpPatch (Settings.version s)
                  = Some (join (major :: minor :: (patch + 1)%N :: rest))).
  { rewrite Hver. now apply bumpPatch_join. }
  destruct (createVersion_run now uuid inserted updated s cfg _ Hcfg Hchanges
              Hbump) as (s' & Hrun & _ & Hreq & Hmem).
  rewrite Hfail in Hmem. destruct Hmem as (Hc & Hv & Hh & _ & He).
  exists s'. rewrite Hcfg. repeat split; assumption.
Qed.

Lemma createVersion_memory_needs_both_writes_witness :
  exists s',
    Settings.handleCreateNewVersion "2024-02-01T00:00:00.000Z" "ver-9"
      (Resolved tt) (Failed "permission denied") (sampleSettings "fix typo")
    = Some s' /\
    Settings.versionHistory s' = [] /\
    length (settingsRequests (Settings.events s')) = 2.
Proof.
  destruct (createVersion_memory_needs_both_writes "2024-02-01T00:00:00.000Z"
              "ver-9" (Resolved tt) (Failed "permission denied")
              (sampleSettings "fix typo") sampleConfig 1 0 0 []
              eq_refl eq_refl eq_refl
              ltac:(repeat constructor; apply N.leb_le; reflexivity)
              eq_refl)
    as (s' & Hrun & _ & _ & Hh & _ & Hreq).
  exists s'. split; [exact Hrun|]. split; [exact Hh|]. now rewrite Hreq.
Defined.

(** X18: [handleCreateNewVersion] with a blank change text, or without a
    configuration, sends nothing, keeps configuration, version cell and
    history, and sets the page's error. *)
Theorem createVersion_rejected_sends_nothing (now uuid : string)
    (inserted updated : Reply unit) (s : Settings.State) :
  isBlank (Settings.newVersionChanges s) = true \/ Settings.config s = None ->
  exists s' msg,
    Settings.handleCreateNewVersion now uuid inserted updated s = Some s' /\
    settingsRequests (Settings.events s') = settingsRequests (Settings.events s) /\
    Settings.config s' = Settings.config s /\
    Settings.version s' = Settings.version s /\
    Settings.versionHistory s' = Settings.versionHistory s /\
    Settings.error s' = Some msg.
Proof.
  intros H. unfold Settings.handleCreateNewVersion, settingsRequests.
  destruct (isBlank (Settings.newVersionChanges s)) eqn:Hb.
  - eexists. eexists. split; [reflexivity|]. cbn. repeat split.
    rewrite flat_map_app. cbn. now rewrite app_nil_r.
  - destruct H as [H|H]; [discriminate|]. rewrite H.
    eexists. eexists. split; [reflexivity|]. cbn. rewrite ?H. repeat split.
    rewrite !flat_map_app. cbn. now rewrite !app_nil_r.
Qed.

Lemma createVersion_rejected_sends_nothing_witness :
  exists s',
    Settings.handleCreateNewVersion "2024-02-01T00:00:00.000Z" "ver-9"
      (Resolved tt) (Resolved tt) emptySettings = Some s' /\
    Settings.versionHistory s' = [].
Proof.
  destruct (createVersion_rejected_sends_nothing "2024-02-01T00:00:00.000Z"
              "ver-9" (Resolved tt) (Resolved tt) emptySettings)
    as (s' & msg & Hrun & _ & _ & _ & Hh & _); [now left|].
  exists s'. split; [exact Hrun|exact Hh].
Defined.

Lemma syncForm_keeps (s : Settings.State) :
  Settings.config (Settings.syncForm s) = Settings.config s /\
  Settings.newVersionChanges (Settings.syncForm s) = Settings.newVersionChanges s /\
  Settings.versionHistory (Settings.syncForm s) = Settings.versionHistory s /\
  Settings.userId (Settings.syncForm s) = Settings.userId s /\
  Settings.events (Settings.syncForm s) = Settings.events s /\
  Settings.version (Settings.syncForm s)
  = match Settings.config s with
    | Some cfg => Config.version cfg
    | None => Settings.version s
    end.
Proof.
  unfold Settings.syncForm. destruct (Settings.config s) eqn:H; cbn;
    rewrite ?H; repeat split.
Qed.

(** The reload of the history touches the history cell, and the error. *)
Lemma fetchVersionHistory_keeps
    (listed : option (Reply (list VersionHistory.t))) (s : Settings.State) :
  let s' := Settings.fetchVersionHistory listed s in
  Settings.config s' = Settings.config s /\
  Settings.newVersionChanges s' = Settings.newVersionChanges s /\
  Settings.version s' = Settings.version s /\
  Settings.userId s' = Settings.userId s /\
  Settings.versionHistory s'
  = match Settings.config s, listed with
    | Some _, Some (Resolved data) => data
    | _, _ => Settings.versionHistory s
    end.
Proof.
  unfold Settings.fetchVersionHistory, Settings.await, attempting.
  destruct (Settings.config s) as [cfg|] eqn:Hcfg; [|now rewrite Hcfg].
  destruct listed as [[data|msg|]|]; cbn; rewrite ?Hcfg; repeat split.
Qed.

(** X19: with a version cell of three or more decimal segments (safe
    integers), a version that was just created cannot be created again by
    submitting the dialog a second time: the first run empties the change
    text, so the second is rejected for a blank text, sends nothing and adds
    no history record. *)
Theorem createVersion_resubmit_rejected (now uuid now' uuid' : string)
    (d1 d2 : unit) (inserted updated : Reply unit) (s : Settings.State)
    (cfg : Config.t) (major minor patch : N) (rest : list N) :
  Settings.config s = Some cfg ->
  isBlank (Settings.newVersionChanges s) = false ->
  Settings.version s = join (major :: minor :: patch :: rest) ->
  Forall (fun n => (n <= MAX_SAFE_INTEGER)%N) (major :: minor :: patch :: rest) ->
  exists s1 s2,
    Settings.handleCreateNewVersion now uuid (Resolved d1) (Resolved d2) s
    = Some s1 /\
    Settings.handleCreateNewVersion now' uuid' inserted updated
      (Settings.syncForm s1) = Some s2 /\
    Settings.versionHistory s2 = Settings.versionHistory s1 /\
    Settings.config s2 = Settings.config s1 /\
    settingsRequests (Settings.events s2) = settingsRequests (Settings.events s1) /\
    Settings.error s2 = Some "Please enter changes for the new version."%string.
Proof.
  intros Hcfg Hchanges Hver Hall.
  assert (Hbump : bumpPatch (Settings.version s)
                  = Some (join (major :: minor :: (patch + 1)%N :: rest))).
  { rewrite Hver. now apply bumpPatch_join. }
  destruct (createVersion_run now uuid (Resolved d1) (Resolved d2) s cfg _
              Hcfg Hchanges Hbump) as (s1 & Hrun & _ & _ & Hmem).
  cbn in Hmem. destruct Hmem as (_ & _ & _ & Htext & _).
  destruct (syncForm_keeps s1) as (Hc & Ht & Hh & _ & He & _).
  exists s1. eexists. split; [exact Hrun|].
  unfold Settings.handleCreateNewVersion. rewrite Ht, Htext. cbn.
  split; [reflexivity|]. cbn. rewrite Hc, Hh, He. repeat split.
  unfold settingsRequests. rewrite flat_map_app. cbn. now rewrite app_nil_r.
Qed.

Lemma createVersion_resubmit_rejected_witness :
  exists s1 s2,
    Settings.handleCreateNewVersion "2024-02-01T00:00:00.000Z" "ver-9"
      (Resolved tt) (Resolved tt) (sampleSettings "fix typo") = Some s1 /\
    Settings.handleCreateNewVersion "2024-02-01T00:00:01.000Z" "ver-10"
      (Resolved tt) (Resolved tt) (Settings.syncForm s1) = Some s2 /\
    length (Settings.versionHistory s2) = 1.
Proof.
  destruct (createVersion_resubmit_rejected "2024-02-01T00:00:00.000Z" "ver-9"
              "2024-02-01T00:00:01.000Z" "ver-10" tt tt (Resolved tt)
              (Resolved tt) (sampleSettings "fix typo") sampleConfig 1 0 0 []
              eq_refl eq_refl eq_refl
              ltac:(repeat constructor; apply N.leb_le; reflexivity))
    as (s1 & s2 & H1 & H2 & Hh & _).
  exists s1, s2. split; [exact H1|]. split; [exact H2|].
  rewrite Hh. injection H1 as <-. reflexivity.
Defined.

(** X20: two versions created one after the other, each with a change text
    that is not blank and both writes accepted, from a configuration at
    MAJOR.MINOR.PATCH (safe integers).  Between the two, the effects on the
    configuration run: the form follows it, and the history is asked again
    from the gateway.  The configuration ends at MAJOR.MINOR.(PATCH + 2);
    the snapshot of the second record is the configuration as the first run
    left it; and the history cell ends with the second record in front of
    the reloaded history if the reload was answered with data before the
    second submit, and in front of the first record and the old history
    otherwise (no answer yet, an error, an exception). *)
Theorem createVersion_twice (now1 uuid1 now2 uuid2 text2 : string)
    (d1 d2 d3 d4 : unit) (reload : option (Reply (list VersionHistory.t)))
    (s : Settings.State) (cfg : Config.t) (major minor patch : N) :
  Settings.config s = Some cfg ->
  isBlank (Settings.newVersionChanges s) = false ->
  isBlank text2 = false ->
  Config.version cfg = semver major minor patch ->
  (major <= MAX_SAFE_INTEGER)%N -> (minor <= MAX_SAFE_INTEGER)%N ->
  (patch + 1 <= MAX_SAFE_INTEGER)%N ->
  let v1 := semver major minor (patch + 1) in
  let v2 := semver major minor (patch + 2) in
  let cfg1 := Settings.withVersion v1 now1 cfg in
  let h1 :=
    VersionHistory.mk uuid1 (Config.id cfg) v1 (Settings.newVersionChanges s)
      cfg now1 (Settings.userId s) in
  let h2 :=
    VersionHistory.mk uuid2 (Config.id cfg) v2 text2 cfg1 now2
      (Settings.userId s) in
  exists s1 s2,
    Settings.handleCreateNewVersion now1 uuid1 (Resolved d1) (Resolved d2)
      (Settings.syncForm s) = Some s1 /\
    Settings.handleCreateNewVersion now2 uuid2 (Resolved d3) (Resolved d4)
      (Settings.setNewVersionChanges text2
         (Settings.fetchVersionHistory reload (Settings.syncForm s1)))
    = Some s2 /\
    Settings.config s2 = Some (Settings.withVersion v2 now2 cfg1) /\
    option_map Config.version (Settings.config s2) = Some v2 /\
    Settings.versionHistory s2
    = h2 :: match reload with
            | Some (Resolved data) => data
            | _ => h1 :: Settings.versionHistory s
            end.
Proof.
  intros Hcfg Hchanges Htext Hver Ha Hb Hp. cbn zeta.
  destruct (syncForm_keeps s) as (Hc0 & Ht0 & Hh0 & Hu0 & _ & Hv0).
  rewrite Hcfg in Hc0, Hv0.
  assert (Hp' : (patch <= MAX_SAFE_INTEGER)%N) by lia.
  destruct (createVersion_run now1 uuid1 (Resolved d1) (Resolved d2)
              (Settings.syncForm s) cfg (semver major minor (patch + 1)))
    as (s1 & Hrun1 & _ & _ & Hmem1).
  { exact Hc0. }
  { now rewrite Ht0. }
  { rewrite Hv0, Hver. now apply bumpPatch_semver. }
  cbn in Hmem1. destruct Hmem1 as (Hc1 & Hv1 & Hh1 & _ & _ & Hu1 & _).
  destruct (syncForm_keeps s1) as (Hc1' & _ & Hh1' & Hu1' & _ & Hv1').
  rewrite Hc1 in Hc1', Hv1'. cbn in Hv1'.
  destruct (fetchVersionHistory_keeps reload (Settings.syncForm s1))
    as (Hc1'' & _ & Hv1'' & Hu1'' & Hh1'').
  rewrite Hc1' in Hc1'', Hh1''. rewrite Hv1' in Hv1''.
  set (s1' := Settings.setNewVersionChanges text2
                (Settings.fetchVersionHistory reload (Settings.syncForm s1))).
  destruct (createVersion_run now2 uuid2 (Resolved d3) (Resolved d4) s1'
              (Settings.withVersion (semver major minor (patch + 1)) now1 cfg)
              (semver major minor (patch + 2)))
    as (s2 & Hrun2 & _ & _ & Hmem2).
  { exact Hc1''. }
  { exact Htext. }
  { subst s1'. cbn. rewrite Hv1''.
    replace (patch + 2)%N with (patch + 1 + 1)%N by lia.
    now apply bumpPatch_semver. }
  cbn in Hmem2. destruct Hmem2 as (Hc2 & _ & Hh2 & _).
  exists s1, s2. split; [exact Hrun1|]. split; [exact Hrun2|].
  split; [exact Hc2|]. split; [now rewrite Hc2|].
  rewrite Hh2. subst s1'. unfold Settings.newVersionHistory. cbn.
  rewrite Hh1'', Hu1'', Hu1', Hu1, Hu0.
  destruct reload as [[data|msg|]|]; try reflexivity;
    rewrite Hh1', Hh1, Hh0; unfold Settings.newVersionHistory;
    now rewrite Ht0, Hu0.
Qed.

Lemma createVersion_twice_witness :
  exists s1 s2,
    Settings.handleCreateNewVersion "2024-02-01T00:00:00.000Z" "ver-9"
      (Resolved tt) (Resolved tt) (Settings.syncForm (sampleSettings "fix typo"))
    = Some s1 /\
    Settings.handleCreateNewVersion "2024-02-02T00:00:00.000Z" "ver-10"
      (Resolved tt) (Resolved tt)
      (Settings.setNewVersionChanges "new colours"
         (Settings.fetchVersionHistory (Some (Failed "timeout"))
            (Settings.syncForm s1)))
    = Some s2 /\
    option_map Config.version (Settings.config s2) = Some "1.0.2"%string /\
    length (Settings.versionHistory s2) = 2.
Proof.
  destruct (createVersion_twice "2024-02-01T00:00:00.000Z" "ver-9"
              "2024-02-02T00:00:00.000Z" "ver-10" "new colours" tt tt tt tt
              (Some (Failed "timeout"))
              (sampleSettings "fix typo") sampleConfig 1 0 0
              eq_refl eq_refl eq_refl eq_refl
              ltac:(apply N.leb_le; reflexivity)
              ltac:(apply N.leb_le; reflexivity)
              ltac:(apply N.leb_le; reflexivity))
    as (s1 & s2 & H1 & H2 & _ & Hv & Hh).
  exists s1, s2. split; [exact H1|]. split; [exact H2|].
  split; [exact Hv|]. now rewrite Hh.
Defined.

Lemma flag_setFlag (feature : string) (value : bool)
    (flags : list (string * bool)) :
  flag feature (setFlag feature value flags) = Some value.
Proof.
  induction flags as [|[k v] l IH]; cbn.
  - now rewrite String.eqb_refl.
  - destruct (String.eqb k feature) eqn:E; cbn.
    + now rewrite String.eqb_refl.
    + now rewrite E.
Qed.

Lemma flag_setFlag_other (feature other : string) (value : bool)
    (flags : list (string * bool)) :
  other <> feature ->
  flag other (setFlag feature value flags) = flag other flags.
Proof.
  intros Hne. induction flags as [|[k v] l IH]; cbn.
  - destruct (String.eqb feature other) eqn:E; [|reflexivity].
    apply String.eqb_eq in E. now elim Hne.
  - destruct (String.eqb k feature) eqn:E; cbn.
    + apply String.eqb_eq in E. subst k.
      destruct (String.eqb feature other) eqn:E'; [|reflexivity].
      apply String.eqb_eq in E'. now elim Hne.
    + now rewrite IH.
Qed.

(** X21: [handleToggleFeature] negates the flag it is given and no other; a
    flag that was never set reads true after one toggle; two toggles of a
    set flag give back its value, while two toggles of a flag that was never
    set leave it set to false.  The configuration is not touched and nothing
    is sent. *)
Theorem toggle_feature (feature : string) (s : Settings.State) :
  let s1 := handleToggleFeature feature s in
  let s2 := handleToggleFeature feature s1 in
  flag feature (Settings.customFeatures s1)
  = Some (negated (flag feature (Settings.customFeatures s))) /\
  (forall other, other <> feature ->
     flag other (Settings.customFeatures s1)
     = flag other (Settings.customFeatures s)) /\
  flag feature (Settings.customFeatures s2)
  = Some (match flag feature (Settings.customFeatures s) with
          | Some b => b
          | None => false
          end) /\
  Settings.config s2 = Settings.config s /\
  Settings.events s2 = Settings.events s.
Proof.
  cbn zeta. unfold handleToggleFeature, setCustomFeatures. cbn.
  rewrite !flag_setFlag. repeat split.
  - intros other Hne. now apply flag_setFlag_other.
  - destruct (flag feature (Settings.customFeatures s)) as [[|]|]; reflexivity.
Qed.

(** ** The notifier hook *)

(** X22: without a signed-in user, or with real-time sync switched off, the
    hook's effect starts no timer and leaves the hook disconnected, and
    [emitUpdate] then changes nothing at all, not even the console; and
    while the hook is disconnected (as it is until the timer fires) an
    update is dropped the same way. *)
Theorem notifier_silent_until_connected (s : Page) :
  (userId s = ""%string \/ isRealTimeEnabled s = false ->
   snd (socketEffect s) = false /\
   isConnected (fst (socketEffect s)) = false /\
   forall (A : Type) (ty action : string) (data : A),
     emitUpdate ty action data (fst (socketEffect s)) = fst (socketEffect s)) /\
  (isConnected s = false ->
   forall (A : Type) (ty action : string) (data : A),
     emitUpdate ty action data s = s) /\
  (userId s <> ""%string -> isRealTimeEnabled s = true ->
   socketEffect s = (s, true) /\
   forall (A : Type) (ty action : string) (data : A),
     events (emitUpdate ty action data (socketTimer s))
     = events s ++ [Logged "WebSocket connected";
                    Logged ("Emitting update: " ++ ty ++ " " ++ action)%string]).
Proof.
  split; [|split].
  - intros H.
    assert (Hoff : String.eqb (userId s) "" || negb (isRealTimeEnabled s) = true).
    { destruct H as [H|H]; rewrite H; cbn; [reflexivity|apply orb_true_r]. }
    unfold socketEffect. rewrite Hoff. cbn. repeat split.
  - intros H A ty action data. unfold emitUpdate. now rewrite H.
  - intros Huser Hon. split.
    + unfold socketEffect. rewrite Hon.
      destruct (String.eqb (userId s) "") eqn:E; [|reflexivity].
      apply String.eqb_eq in E. now elim Huser.
    + intros A ty action data. unfold emitUpdate, socketTimer. cbn.
      rewrite Hon. cbn. now rewrite <- app_assoc.
Qed.

Lemma notifier_silent_until_connected_witness :
  emitUpdate "spacing" "add" defaultScale (fst (socketEffect samplePage))
  = fst (socketEffect samplePage).
Proof.
  apply (proj1 (notifier_silent_until_connected samplePage)). now right.
Defined.

(** ** Feedback page *)

Ltac feedback_notifier s :=
  try unfold Feedback.emitUpdate; cbn;
  destruct (Feedback.isConnected s), (Feedback.isRealTimeEnabled s); cbn.

(** X23: deleting a feedback deletes its comments first.  If that first
    delete is not accepted, the delete of the feedback is never sent; if it
    is accepted and the delete of the feedback is not, both requests have
    left.  Either way the page keeps its collection and the viewed feedback
    and reports the failure. *)
Theorem feedback_delete_failure (commentsDeleted deleted : Reply unit)
    (id : string) (s : Feedback.State) :
  succeeded commentsDeleted && succeeded deleted = false ->
  let s' := Feedback.handleDelete true commentsDeleted deleted id s in
  Feedback.feedbacks s' = Feedback.feedbacks s /\
  Feedback.viewingFeedback s' = Feedback.viewingFeedback s /\
  Feedback.error s' = Some "Failed to delete feedback. Please try again."%string /\
  Feedback.requests (Feedback.events s')
  = Feedback.requests (Feedback.events s)
    ++ Feedback.DeleteComments id
       :: (if succeeded commentsDeleted then [Feedback.DeleteFeedback id]
           else []).
Proof.
  intros Hfail.
  unfold Feedback.handleDelete, Feedback.await, awaiting, Feedback.requests.
  destruct commentsDeleted as [d1|m1|], deleted as [d2|m2|];
    try discriminate; cbn; repeat split;
    rewrite !flat_map_app; cbn; rewrite ?app_nil_r, <- ?app_assoc;
    reflexivity.
Qed.

Lemma feedback_delete_failure_witness :
  let s' :=
    Feedback.handleDelete true (Resolved tt) (Failed "permission denied")
      "fb-1" (sampleFeedbackPage "") in
  Feedback.feedbacks s' = [otherFeedback; sampleFeedback] /\
  Feedback.requests (Feedback.events s')
  = [Feedback.DeleteComments "fb-1"; Feedback.DeleteFeedback "fb-1"].
Proof.
  destruct (feedback_delete_failure (Resolved tt) (Failed "permission denied")
              "fb-1" (sampleFeedbackPage "") eq_refl) as (Hf & _ & _ & Hr).
  split; [exact Hf|exact Hr].
Defined.

(** X24: a confirmed delete of a feedback that the gateway accepted twice
    removes every feedback with that id from the collection and keeps the
    others, but does not touch the viewed feedback: a dialog open on the
    deleted feedback keeps showing it. *)
Theorem feedback_delete_keeps_viewing (d1 d2 : unit) (id : string)
    (s : Feedback.State) :
  let s' := Feedback.handleDelete true (Resolved d1) (Resolved d2) id s in
  (forall f, In f (Feedback.feedbacks s')
             <-> In f (Feedback.feedbacks s) /\ Feedback.id f <> id) /\
  Feedback.viewingFeedback s' = Feedback.viewingFeedback s /\
  Feedback.isDetailOpen s' = Feedback.isDetailOpen s /\
  Feedback.error s' = Feedback.error s.
Proof.
  cbn zeta.
  assert (H : Feedback.feedbacks
                (Feedback.handleDelete true (Resolved d1) (Resolved d2) id s)
              = filter (fun f => negb (String.eqb (Feedback.id f) id))
                  (Feedback.feedbacks s) /\
              Feedback.viewingFeedback
                (Feedback.handleDelete true (Resolved d1) (Resolved d2) id s)
              = Feedback.viewingFeedback s /\
              Feedback.isDetailOpen
                (Feedback.handleDelete true (Resolved d1) (Resolved d2) id s)
              = Feedback.isDetailOpen s /\
              Feedback.error
                (Feedback.handleDelete true (Resolved d1) (Resolved d2) id s)
              = Feedback.error s).
  { unfold Feedback.handleDelete, Feedback.await, awaiting.
    feedback_notifier s; repeat split. }
  destruct H as (Hf & Hv & Ho & He). rewrite Hf. repeat split; auto.
  - apply filter_In in H. tauto.
  - apply filter_In in H. destruct H as [_ H].
    apply negb_true_iff in H. intros Heq. rewrite Heq, String.eqb_refl in H.
    discriminate.
  - intros [Hin Hne]. apply filter_In. split; [exact Hin|].
    apply negb_true_iff. destruct (String.eqb (Feedback.id f) id) eqn:E;
      [|reflexivity].
    apply String.eqb_eq in E. now elim Hne.
Qed.

(** What [handleAddComment] leaves. *)
Lemma addComment_state (feedbackId : string) (cm : FeedbackComment.t)
    (s : Feedback.State) :
  let s' := Feedback.handleAddComment feedbackId cm s in
  Feedback.feedbacks s'
  = map (fun f => if String.eqb (Feedback.id f) feedbackId
                  then Feedback.withComment cm f else f)
      (Feedback.feedbacks s) /\
  Feedback.viewingFeedback s'
  = match Feedback.viewingFeedback s with
    | Some v => if String.eqb (Feedback.id v) feedbackId
                then Some (Feedback.withComment cm v) else Some v
    | None => None
    end /\
  Feedback.requests (Feedback.events s') = Feedback.requests (Feedback.events s) /\
  Feedback.commentError s' = Feedback.commentError s /\
  Feedback.userId s' = Feedback.userId s.
Proof.
  unfold Feedback.handleAddComment, Feedback.requests.
  destruct (Feedback.viewingFeedback s) as [v|] eqn:Hv;
    [destruct (String.eqb (Feedback.id v) feedbackId)|];
    feedback_notifier s; rewrite ?Hv; repeat split;
    rewrite ?flat_map_app; cbn; now rewrite ?app_nil_r.
Qed.

(** X25: submitting a comment that is not blank from the detail dialog, when
    the gateway accepts the insert: the comment (fresh id, the text as
    typed, the page's user, the time of the write) becomes the last comment
    of the viewed feedback, both in the dialog and on every feedback of the
    collection with that id; feedbacks with another id are untouched, the
    text box is emptied and the one request is the insert of that comment. *)
Theorem submit_comment_appends (now uuid : string) (d : unit)
    (s : Feedback.State) (viewed : Feedback.t) :
  Feedback.viewingFeedback s = Some viewed ->
  isBlank (Feedback.commentText s) = false ->
  let cm :=
    FeedbackComment.mk uuid (Feedback.id viewed) (Feedback.commentText s) now
      (Feedback.userId s) in
  let s' := Feedback.handleSubmitComment now uuid (Resolved d) s in
  (exists viewed',
     Feedback.viewingFeedback s' = Some viewed' /\
     Feedback.commentsOf viewed' = Feedback.commentsOf viewed ++ [cm]) /\
  (forall f, In f (Feedback.feedbacks s) ->
     Feedback.id f = Feedback.id viewed ->
     exists f', In f' (Feedback.feedbacks s') /\
                Feedback.id f' = Feedback.id f /\
                Feedback.commentsOf f' = Feedback.commentsOf f ++ [cm]) /\
  (forall f, In f (Feedback.feedbacks s) ->
     Feedback.id f <> Feedback.id viewed -> In f (Feedback.feedbacks s')) /\
  length (Feedback.feedbacks s') = length (Feedback.feedbacks s) /\
  Feedback.commentText s' = ""%string /\
  Feedback.commentError s' = None /\
  Feedback.requests (Feedback.events s')
  = Feedback.requests (Feedback.events s) ++ [Feedback.InsertComment cm].
Proof.
  intros Hv Htext. cbn zeta.
  unfold Feedback.handleSubmitComment. rewrite Hv, Htext.
  unfold Feedback.await, awaiting.
  cbn -[Feedback.handleAddComment Feedback.requests].
  set (cm := FeedbackComment.mk uuid (Feedback.id viewed)
               (Feedback.commentText s) now (Feedback.userId s)).
  set (s1 := Feedback.record (Feedback.Sent (Feedback.InsertComment cm))
               (Feedback.setCommentError None
                  (Feedback.setIsSubmittingComment true s))).
  destruct (addComment_state (Feedback.id viewed) cm s1)
    as (Hf & Hview & Hreq & Herr & _).
  change (Feedback.viewingFeedback s1) with (Feedback.viewingFeedback s)
    in Hview.
  change (Feedback.feedbacks s1) with (Feedback.feedbacks s) in Hf.
  rewrite Hv, String.eqb_refl in Hview.
  rewrite Hf, Hview, Hreq, Herr. repeat split.
  - eexists. split; reflexivity.
  - intros f Hin Hid. exists (Feedback.withComment cm f). repeat split.
    apply in_map_iff. exists f. split; [|exact Hin].
    now rewrite Hid, String.eqb_refl.
  - intros f Hin Hne. apply in_map_iff. exists f. split; [|exact Hin].
    destruct (String.eqb (Feedback.id f) (Feedback.id viewed)) eqn:E;
      [|reflexivity].
    apply String.eqb_eq in E. now elim Hne.
  - apply length_map.
  - subst s1. unfold Feedback.requests. cbn.
    rewrite !flat_map_app. cbn. now rewrite ?app_nil_r.
Qed.

Lemma submit_comment_appends_witness :
  exists viewed',
    Feedback.viewingFeedback
      (Feedback.handleSubmitComment "2024-02-01T00:00:00.000Z" "com-9"
         (Resolved tt) (sampleFeedbackPage "Fixed in 1.0.1")) = Some viewed' /\
    length (Feedback.commentsOf viewed') = 2.
Proof.
  destruct (submit_comment_appends "2024-02-01T00:00:00.000Z" "com-9" tt
              (sampleFeedbackPage "Fixed in 1.0.1") sampleFeedback
              eq_refl eq_refl) as ((viewed' & Hv & Hc) & _).
  exists viewed'. split; [exact Hv|]. now rewrite Hc.
Defined.

(** X26: a comment that is blank is rejected before any request, and a
    comment whose insert the gateway does not accept is not added: in both
    cases the collection, the viewed feedback and the typed text are kept
    and the dialog shows an error. *)
Theorem submit_comment_rejected_or_failed (now uuid : string)
    (inserted : Reply unit) (s : Feedback.State) (viewed : Feedback.t) :
  Feedback.viewingFeedback s = Some viewed ->
  isBlank (Feedback.commentText s) = true \/ succeeded inserted = false ->
  let s' := Feedback.handleSubmitComment now uuid inserted s in
  Feedback.feedbacks s' = Feedback.feedbacks s /\
  Feedback.viewingFeedback s' = Some viewed /\
  Feedback.commentText s' = Feedback.commentText s /\
  (exists msg, Feedback.commentError s' = Some msg) /\
  Feedback.isSubmittingComment s'
  = (if isBlank (Feedback.commentText s)
     then Feedback.isSubmittingComment s else false) /\
  (isBlank (Feedback.commentText s) = true ->
   Feedback.requests (Feedback.events s') = Feedback.requests (Feedback.events s)).
Proof.
  intros Hv H. unfold Feedback.handleSubmitComment, Feedback.requests.
  rewrite Hv. destruct (isBlank (Feedback.commentText s)) eqn:Hb.
  - cbn. rewrite Hv. repeat split; [eexists; reflexivity|].
    intros _. rewrite flat_map_app. cbn. now rewrite app_nil_r.
  - destruct H as [H|H]; [discriminate|].
    unfold Feedback.await, awaiting.
    destruct inserted as [d|msg|]; try discriminate; cbn; rewrite Hv;
      repeat split; try (eexists; reflexivity); discriminate.
Qed.

Lemma submit_comment_rejected_or_failed_witness :
  Feedback.feedbacks
    (Feedback.handleSubmitComment "2024-02-01T00:00:00.000Z" "com-9"
       (Resolved tt) (sampleFeedbackPage "   "))
  = [otherFeedback; sampleFeedback].
Proof.
  apply (submit_comment_rejected_or_failed "2024-02-01T00:00:00.000Z" "com-9"
           (Resolved tt) (sampleFeedbackPage "   ") sampleFeedback eq_refl).
  now left.
Defined.

(** What [restamp] does to the statuses, the other feedbacks and the ids. *)
Lemma restamp_status (id newStatus : string) (clock : nat -> string)
    (l : list Feedback.t) :
  forall (k : nat) (f : Feedback.t),
    In f (Feedback.restamp id newStatus clock k l) ->
    Feedback.id f = id -> Feedback.status f = newStatus.
Proof.
  induction l as [|g rest IH]; intros k f Hin Hid; [destruct Hin|].
  cbn in Hin. destruct (String.eqb (Feedback.id g) id) eqn:E.
  - destruct Hin as [<-|Hin]; [reflexivity|]. now apply (IH (S k)).
  - destruct Hin as [<-|Hin]; [|now apply (IH k)].
    rewrite Hid, String.eqb_refl in E. discriminate.
Qed.

Lemma restamp_keeps (id newStatus : string) (clock : nat -> string)
    (l : list Feedback.t) :
  forall (k : nat) (f : Feedback.t),
    In f l -> Feedback.id f <> id ->
    In f (Feedback.restamp id newStatus clock k l).
Proof.
  induction l as [|g rest IH]; intros k f Hin Hne; [destruct Hin|].
  cbn. destruct (String.eqb (Feedback.id g) id) eqn:E.
  - destruct Hin as [->|Hin]; [|right; now apply IH].
    apply String.eqb_eq in E. now elim Hne.
  - destruct Hin as [->|Hin]; [now left|right; now apply IH].
Qed.

Lemma restamp_ids (id newStatus : string) (clock : nat -> string)
    (l : list Feedback.t) :
  forall k : nat,
    map Feedback.id (Feedback.restamp id newStatus clock k l)
    = map Feedback.id l.
Proof.
  induction l as [|g rest IH]; intros k; [reflexivity|].
  cbn. destruct (String.eqb (Feedback.id g) id); cbn; now rewrite IH.
Qed.

Lemma restamp_one_reading (id newStatus now2 : string)
    (clock : nat -> string) (l : list Feedback.t) :
  (forall k, clock k = now2) ->
  forall k : nat,
    Feedback.restamp id newStatus clock k l
    = map (fun f => if String.eqb (Feedback.id f) id
                    then Feedback.withStatus newStatus now2 f else f) l.
Proof.
  intros Hclock. induction l as [|g rest IH]; intros k; [reflexivity|].
  cbn. destruct (String.eqb (Feedback.id g) id); now rewrite ?Hclock, IH.
Qed.

(** X27: a status change that the gateway accepts gives the new status to
    every feedback of the collection with that id and to the viewed feedback
    if it has that id, and leaves the others, the order and the ids as they
    were; the clock is read again for each feedback that is changed (and
    once more for the viewed one), so the changed feedbacks carry one and
    the same time stamp only when the readings agree.  A change that the
    gateway does not accept changes neither the collection nor the viewed
    feedback and reports an error.  In both cases the one request is the
    update. *)
Theorem status_change_needs_acceptance (now1 : string) (clock : nat -> string)
    (now3 : string) (updated : Reply unit) (id newStatus : string)
    (s : Feedback.State) :
  let s' := Feedback.handleStatusChange now1 clock now3 updated id newStatus s in
  Feedback.requests (Feedback.events s')
  = Feedback.requests (Feedback.events s)
    ++ [Feedback.UpdateStatus id newStatus now1] /\
  if succeeded updated then
    Feedback.feedbacks s'
    = Feedback.restamp id newStatus clock 0 (Feedback.feedbacks s) /\
    map Feedback.id (Feedback.feedbacks s')
    = map Feedback.id (Feedback.feedbacks s) /\
    (forall now2, (forall k, clock k = now2) ->
       Feedback.feedbacks s'
       = map (fun f => if String.eqb (Feedback.id f) id
                       then Feedback.withStatus newStatus now2 f else f)
           (Feedback.feedbacks s)) /\
    (forall f, In f (Feedback.feedbacks s') -> Feedback.id f = id ->
               Feedback.status f = newStatus) /\
    (forall f, In f (Feedback.feedbacks s) -> Feedback.id f <> id ->
               In f (Feedback.feedbacks s')) /\
    (forall v, Feedback.viewingFeedback s = Some v -> Feedback.id v = id ->
               Feedback.viewingFeedback s'
               = Some (Feedback.withStatus newStatus now3 v)) /\
    Feedback.error s' = Feedback.error s
  else
    Feedback.feedbacks s' = Feedback.feedbacks s /\
    Feedback.viewingFeedback s' = Feedback.viewingFeedback s /\
    Feedback.error s'
    = Some "Failed to update feedback status. Please try again."%string.
Proof.
  cbn zeta.
  unfold Feedback.handleStatusChange, Feedback.await, awaiting,
    Feedback.requests.
  destruct updated as [d|msg|]; cbn -[Feedback.restamp].
  2,3: repeat split; rewrite !flat_map_app; cbn; now rewrite ?app_nil_r.
  pose proof (restamp_status id newStatus clock (Feedback.feedbacks s) 0)
    as Hstatus.
  pose proof (restamp_keeps id newStatus clock (Feedback.feedbacks s) 0)
    as Hkeep.
  pose proof (restamp_ids id newStatus clock (Feedback.feedbacks s) 0)
    as Hids.
  assert (Hone : forall now2, (forall k, clock k = now2) ->
            Feedback.restamp id newStatus clock 0 (Feedback.feedbacks s)
            = map (fun f => if String.eqb (Feedback.id f) id
                            then Feedback.withStatus newStatus now2 f else f)
                (Feedback.feedbacks s)).
  { intros now2 Hclock. now apply restamp_one_reading. }
  destruct (Feedback.viewingFeedback s) as [v|] eqn:Hv;
    [destruct (String.eqb (Feedback.id v) id) eqn:Hid|];
    feedback_notifier s; rewrite ?Hv; repeat split; auto;
    try (rewrite !flat_map_app; cbn; now rewrite ?app_nil_r);
    try discriminate.
  all: intros w Hw Hwid; injection Hw as <-;
       try reflexivity; rewrite Hwid, String.eqb_refl in Hid; discriminate.
Qed.

(** ** Version strings, in general *)

(** X28: a version string built from numbers reads back as the same
    numbers: for a non-empty list of safe integers, joining with dots, then
    splitting on dots and converting each segment, returns the list. *)
Theorem segments_round_trip (ns : list N) :
  ns <> [] ->
  Forall (fun n => (n <= MAX_SAFE_INTEGER)%N) ns ->
  allSome (map Number (split "." (join ns))) = Some ns.
Proof.
  induction ns as [|n rest IH]; [now intros H|]. intros _ Hall.
  inversion Hall as [|x l Hn Hrest]; subst.
  destruct rest as [|m rest].
  - cbn [join]. rewrite split_last by apply render_noDot.
    cbn. now rewrite Number_render.
  - rewrite join_cons, split_segment by apply render_noDot.
    cbn [map allSome]. rewrite Number_render by exact Hn.
    rewrite IH; [reflexivity|discriminate|exact Hrest].
Qed.

Lemma segments_round_trip_witness :
  allSome (map Number (split "." (join [2; 10; 0; 7]%N))) = Some [2; 10; 0; 7]%N.
Proof.
  apply (segments_round_trip [2; 10; 0; 7]%N); [discriminate|].
  repeat constructor; apply N.leb_le; reflexivity.
Defined.

(** X29: the bump touches the third segment only: on a version of three or
    more segments it adds one to the third and keeps the first two and any
    segment after the third. *)
Theorem bumpPatch_keeps_other_segments (major minor patch : N)
    (rest : list N) :
  Forall (fun n => (n <= MAX_SAFE_INTEGER)%N) (major :: minor :: patch :: rest) ->
  bumpPatch (join (major :: minor :: patch :: rest))
  = Some (join (major :: minor :: (patch + 1)%N :: rest)).
Proof.
  intros Hall. unfold bumpPatch.
  rewrite segments_round_trip_aux by (discriminate || exact Hall).
  reflexivity.
Qed.

Lemma bumpPatch_keeps_other_segments_witness :
  bumpPatch "1.2.3.4" = Some "1.2.4.4"%string.
Proof.
  apply (bumpPatch_keeps_other_segments 1 2 3 [4%N]).
  repeat constructor; apply N.leb_le; reflexivity.
Defined.
